(** * OpenRobot API wrapper: the synchronous client

    A shallow embedding of [openrobot/api_wrapper/_sync.py]: the
    constructor of [SyncClient], [_get_authorization_headers] and the
    request dispatcher [_request] with its retry loop, followed by the
    properties of the dispatcher.

    Modelling conventions.
    - Python values that travel through [**kwargs] are values of [PyVal];
      [kwargs] itself is a [gmap string PyVal], so that [kwargs.get],
      [kwargs.pop] and [kwargs[k]] are lookup, lookup-then-delete and a
      lookup that raises [KeyError].
    - A Python [str] is a [string]; one [ascii] stands for one code
      point, so the model covers text below code point 256.
    - Exceptions are values of [Exn]; a call either returns or raises
      ([Outcome]).
    - The network and the clock are observed through a trace of [Event]s:
      every [Session.request] appends [Sent], every [time.sleep] appends
      [Slept], every [warnings.warn] appends [Warned].
    - The [while] loop of [_request] may run forever (unbounded tries
      against a server that always answers 429), so [retry_loop] takes
      fuel: one unit per iteration, [None] when it runs out.
    - The built-ins [int] and [time.sleep] are those of CPython 3.11 on
      64-bit Linux, with the interpreter's default settings. *)

From Stdlib Require Import ZArith Ascii String List Bool Lia.
From stdpp Require Import gmap strings list fin_maps.

Set Warnings "-register-all".
Set Default Proof Using "Type".

Local Open Scope string_scope.
Local Open Scope Z_scope.
Local Open Scope list_scope.

(* ===================================================================== *)
(** ** Python values                                                      *)
(* ===================================================================== *)

Inductive PyVal : Type :=
  | PyNone
  | PyBool (b : bool)
  | PyInt (z : Z)
  | PyStr (s : string)
  | PyList (l : list PyVal)
  | PyDict (d : gmap string PyVal).

(** [bool(v)]: [None], [False], [0], [''], [[]] and [{}] are falsy. *)
Definition truthy (v : PyVal) : bool :=
  match v with
  | PyNone => false
  | PyBool b => b
  | PyInt z => negb (z =? 0)
  | PyStr s => negb (String.eqb s "")
  | PyList l => match l with [] => false | _ :: _ => true end
  | PyDict d => negb (Nat.eqb (size d) 0)
  end.

(** [isinstance(v, dict)]. *)
Definition is_dict (v : PyVal) : bool :=
  match v with PyDict _ => true | _ => false end.

(** [d.get(k)], with [None] for a missing key. *)
Definition dict_get (k : string) (d : gmap string PyVal) : PyVal :=
  default PyNone (d !! k).

(** [d.pop(k, dflt)]: the value (or the default) and the dictionary
    without the key. *)
Definition dict_pop (k : string) (dflt : PyVal) (d : gmap string PyVal)
  : PyVal * gmap string PyVal :=
  (default dflt (d !! k), delete k d).

(* ===================================================================== *)
(** ** Strings                                                            *)
(* ===================================================================== *)

(** [s.startswith(pre)]. *)
Fixpoint startswith (s pre : string) : bool :=
  match pre, s with
  | EmptyString, _ => true
  | String a pre', String b s' => Ascii.eqb a b && startswith s' pre'
  | String _ _, EmptyString => false
  end.

(** [s[n:]]: the slice is empty when [s] is shorter than [n]. *)
Fixpoint slice_from (n : nat) (s : string) : string :=
  match n, s with
  | O, _ => s
  | S n', String _ s' => slice_from n' s'
  | S _, EmptyString => EmptyString
  end.

(** [c in s] for a one-character [c]. *)
Fixpoint char_in (c : ascii) (s : string) : bool :=
  match s with
  | EmptyString => false
  | String a s' => Ascii.eqb c a || char_in c s'
  end.

(** The bracket expression of the pattern in [_request]. Between [[]
    and []] the dot and the bar are ordinary characters, so the pattern
    accepts ONE character out of this set where a host name was meant. *)
Definition host_class : string := "api.openrobot.xyz|lyrics.ayomerdeka.com".

(** [re.match(r'^http[s]?://[api.openrobot.xyz|lyrics.ayomerdeka.com]/', url)]
    as a truth value. After [http] at most one [s] is taken; the next
    character has to be [:], so whether the [s] is taken is forced. *)
Definition url_regex_match (url : string) : bool :=
  if startswith url "http" then
    let rest := slice_from 4 url in
    let rest := if startswith rest "s" then slice_from 1 rest else rest in
    if startswith rest "://" then
      match slice_from 3 rest with
      | String c (String sl _) => char_in c host_class && Ascii.eqb sl "/"
      | _ => false
      end
    else false
  else false.

(** Lower-casing of ASCII letters, for header names. *)
Definition lower_ascii (c : ascii) : ascii :=
  let n := nat_of_ascii c in
  if (Nat.leb 65 n && Nat.leb n 90)%bool then ascii_of_nat (n + 32) else c.

Fixpoint lower (s : string) : string :=
  match s with
  | EmptyString => EmptyString
  | String c s' => String (lower_ascii c) (lower s')
  end.

(** *** [int(s)] on a string

    Surrounding white space, an optional sign, then decimal digits in
    which single underscores may separate digits; at most
    [int_max_str_digits] digits.

    The white space [int] strips: the ASCII characters 9 to 13 and 32,
    and, of the other code points below 256, the two that are Unicode
    white space, U+0085 and U+00A0 (they are turned into a space before
    the number is read). The separators 28 to 31 are not stripped. *)
Definition is_space (c : ascii) : bool :=
  let n := nat_of_ascii c in
  (Nat.eqb n 32 || (Nat.leb 9 n && Nat.leb n 13)
   || Nat.eqb n 133 || Nat.eqb n 160)%bool.

(** [sys.get_int_max_str_digits()] as the interpreter starts: a string
    with more decimal digits is refused with [ValueError]. *)
Definition int_max_str_digits : Z := 4300.

Definition digit_of (c : ascii) : option Z :=
  let n := nat_of_ascii c in
  if (Nat.leb 48 n && Nat.leb n 57)%bool then Some (Z.of_nat (n - 48)) else None.

Fixpoint lstrip (s : string) : string :=
  match s with
  | String c s' => if is_space c then lstrip s' else s
  | EmptyString => EmptyString
  end.

Fixpoint rstrip (s : string) : string :=
  match s with
  | EmptyString => EmptyString
  | String c s' =>
      match rstrip s' with
      | EmptyString => if is_space c then EmptyString else String c EmptyString
      | t => String c t
      end
  end.

Fixpoint parse_digits (s : string) (acc : Z) (after_digit : bool) : option Z :=
  match s with
  | EmptyString => if after_digit then Some acc else None
  | String c s' =>
      match digit_of c with
      | Some d => parse_digits s' (10 * acc + d) true
      | None =>
          if (Ascii.eqb c "_" && after_digit)%bool
          then parse_digits s' acc false
          else None
      end
  end.

(** The number of decimal digits in [s], leading zeros included,
    underscores not. *)
Fixpoint count_digits (s : string) : Z :=
  match s with
  | EmptyString => 0
  | String c s' =>
      match digit_of c with
      | Some _ => 1 + count_digits s'
      | None => count_digits s'
      end
  end.

(** The digits after the sign. *)
Definition parse_unsigned (t : string) : option Z :=
  if int_max_str_digits <? count_digits t then None
  else parse_digits t 0 false.

Definition py_int (s : string) : option Z :=
  match rstrip (lstrip s) with
  | String "-" t => option_map Z.opp (parse_unsigned t)
  | String "+" t => parse_unsigned t
  | t => parse_unsigned t
  end.

(** *** [time.sleep(n)] on an int

    The delay is first converted to nanoseconds in a signed 64-bit
    integer, which fails with [OverflowError] beyond 9223372036 seconds
    either way; a negative delay is then refused with [ValueError]; and
    the deadline, the reading [now] of the monotonic clock (in
    nanoseconds) plus the delay, is handed to [clock_nanosleep], which
    answers [EINVAL] when the sum has left the 64-bit range: [OSError].
    So the longest delay that is slept depends on the clock: with the
    clock at 11645 s it is 9223360391 s, and 9223360392 s raises.
    [None] stands for a call that sleeps and returns. *)
Definition int64_max : Z := 9223372036854775807.

Definition sec_to_ns : Z := 1000000000.

(* ===================================================================== *)
(** ** Responses, exceptions, outcomes and the observable trace           *)
(* ===================================================================== *)

(** What [_request] reads of a [requests.Response]: [r.status_code],
    [r.headers] and [r.json()]. The headers are a case-insensitive
    dictionary, kept here under lower-cased names; [json] is [None] when
    the body is not JSON, in which case [r.json()] raises. *)
Record Response : Type := mkResponse {
  status_code : Z;
  headers : gmap string string;
  json : option PyVal
}.

(** [r.headers[name]]: [None] stands for the [KeyError]. *)
Definition header_get (r : Response) (name : string) : option string :=
  headers r !! lower name.

Inductive Exn : Type :=
  | TypeError (msg : string)
  | KeyError (msg : string)
  | ValueError (msg : string)
  | AttributeError (msg : string)
  | OverflowError (msg : string)
  | OSError (msg : string)
  | UnboundLocalError (name : string)
  | JSONDecodeError
  | ConnectionError
  | NoTokenProvided
  | Forbidden (r : Response) (js : PyVal)
  | BadRequest (r : Response) (js : PyVal)
  | InternalServerError (r : Response) (js : PyVal)
  | TooManyRequests (r : Response) (js : PyVal)
  | OpenRobotAPIError (js : PyVal) (raw : PyVal) (response : Response).

(** [isinstance(e, NameError)]: [UnboundLocalError] is the subclass of
    [NameError] raised when a local variable is read before it is bound. *)
Definition is_NameError (e : Exn) : bool :=
  match e with UnboundLocalError _ => true | _ => false end.

(** [isinstance(e, LookupError)]: [KeyError] is its subclass. *)
Definition is_LookupError (e : Exn) : bool :=
  match e with KeyError _ => true | _ => false end.

(** What [_request] hands back: the response object when [raw] is
    truthy, the decoded body otherwise. *)
Inductive Value : Type :=
  | Raw (r : Response)
  | Decoded (js : PyVal).

Inductive Outcome : Type :=
  | Returned (v : Value)
  | Raised (e : Exn).

Inductive Event : Type :=
  | Sent (method url : string) (kwargs : gmap string PyVal)
  | Slept (seconds : Z)
  | Warned (msg : string).

(** What one dispatch meets outside the program. The transport: the
    answer to the [n]-th call of [Session.request] (counted from 0),
    [None] when the transport itself raises; a [Server] is applied to
    the request like a function. And the machine's monotonic clock,
    which [time.sleep] consults: its reading in nanoseconds when the
    [n]-th answer has come. *)
Record Server : Type := mkServer {
  answer :> nat -> string -> string -> gmap string PyVal -> option Response;
  monotonic : nat -> N
}.

(* ===================================================================== *)
(** ** The client                                                         *)
(* ===================================================================== *)

Record SyncClient : Type := mkSyncClient {
  token : string;
  handle_ratelimit : bool;
  tries : option Z
}.

Definition testing_token : string := "I-Am-Testing".

Definition testing_warning : string :=
  "Using I-Am-Testing token will only let you 5 requests/day (UTC based, will reset on 00:00 UTC) for all `/api` methods and will raise an `openrobot.api_wrapper.error.Forbidden` after you have reached your limit.".

(** [bool(a)] for [a] that is [None] or a string: [None] and [''] are
    falsy. *)
Definition str_truthy (a : option string) : bool :=
  match a with
  | Some s => negb (String.eqb s "")
  | None => false
  end.

(** [a or b]: [b] is only evaluated when [a] is falsy. *)
Definition str_or (a : option string) (b : unit -> option string) : option string :=
  if str_truthy a then a else b tt.

Section Construction.

(** [utils.get_token_from_file] is not part of the module; its result
    ([None] or a string) is taken as given. *)
Variable get_token_from_file : unit -> option string.

(** [SyncClient.__init__(token, ignore_warning=, handle_ratelimit=, tries=)]:
    the new client or the exception, and the warnings emitted. *)
Definition __init__ (token : option string) (ignore_warning handle_ratelimit : bool)
    (tries : option Z) : (Exn + SyncClient) * list Event :=
  let token := str_or token get_token_from_file in
  if negb (str_truthy token) then (inl NoTokenProvided, [])
  else
    let t := default "" token in
    let c := mkSyncClient t handle_ratelimit tries in
    if (String.eqb t testing_token && negb ignore_warning)%bool
    then (inr c, [Warned testing_warning])
    else (inr c, []).

(** [SyncClient()]: every argument at its default. *)
Definition init_default : (Exn + SyncClient) * list Event :=
  __init__ (Some testing_token) false true (Some 5).

End Construction.

(** [self._get_authorization_headers(token, header=)]. *)
Definition _get_authorization_headers (self : SyncClient)
    (tok : option string) (header : bool) : PyVal :=
  let t := default (token self) (str_or tok (fun _ => Some (token self))) in
  if negb header then PyStr ("token=" +:+ t)
  else PyDict {[ "Authorization" := PyStr t ]}.

(** [target.update(other)]: the entries of [other] win. *)
Definition dict_update (target other : PyVal) : Exn + PyVal :=
  match target, other with
  | PyDict d, PyDict o => inr (PyDict (o ∪ d))
  | PyDict _, _ => inl (TypeError "cannot convert dictionary update sequence")
  | _, _ => inl (AttributeError "update")
  end.

(* ===================================================================== *)
(** ** [_request]: everything before the loop                             *)
(* ===================================================================== *)

Definition base_url : string := "https://api.openrobot.xyz/api".

(** Lines 74-79: the [Authorization] header and the caller's headers.
    The branch for a non-empty caller dictionary pops ['headers'] and
    then subscripts [kwargs] with the key it has just removed. *)
Definition merge_headers (self : SyncClient) (kwargs : gmap string PyVal)
  : Exn + gmap string PyVal :=
  let headers := _get_authorization_headers self None true in
  if (truthy (dict_get "headers" kwargs) && is_dict (dict_get "headers" kwargs))%bool then
    let '(hdr, kwargs) := dict_pop "headers" PyNone kwargs in
    match kwargs !! "headers" with
    | None => inl (KeyError "headers")
    | Some target =>
        match dict_update target headers with
        | inl e => inl e
        | inr merged => inr (<["headers" := merged]> kwargs)
        end
    end
  else inr (<["headers" := headers]> kwargs).

(** Lines 83-84 and 88-89 taken together: the target loses its first
    character unless that is a slash, and then its first four characters
    unless it begins with [api/]. *)
Definition strip_url (url : string) : string :=
  let url := if negb (startswith url "/") then slice_from 1 url else url in
  if negb (startswith url "api/") then slice_from 4 url else url.

(** What the loop works with: the URL, the keyword arguments handed to
    [Session.request], and the popped [return_on] and [raw]. *)
Record Prepared : Type := mkPrepared {
  p_url : string;
  p_kwargs : gmap string PyVal;
  p_return_on : PyVal;
  p_raw : PyVal
}.

(** Lines 72-94, in the order of the source. [no_url_regex] is only
    popped when the pattern does not match ([and] short-circuits). *)
Definition prepare (self : SyncClient) (url : string) (kwargs : gmap string PyVal)
  : Exn + Prepared :=
  match merge_headers self kwargs with
  | inl e => inl e
  | inr kwargs =>
      let '(return_on, kwargs) := dict_pop "return_on" (PyList []) kwargs in
      let url := if negb (startswith url "/") then slice_from 1 url else url in
      let '(raw, kwargs) := dict_pop "raw" (PyBool false) kwargs in
      let url := if negb (startswith url "api/") then slice_from 4 url else url in
      if url_regex_match url then
        inl (TypeError "URL is not a valid HTTP/HTTPs URL.")
      else
        let '(no_url_regex, kwargs) := dict_pop "no_url_regex" (PyBool false) kwargs in
        if negb (truthy no_url_regex) then
          inr (mkPrepared (base_url +:+ url) kwargs return_on raw)
        else
          inl (TypeError "URL is not a valid HTTP/HTTPs URL.")
  end.

(* ===================================================================== *)
(** ** [_request]: the retry loop                                         *)
(* ===================================================================== *)

(** [code == v] for an element [v] of [return_on]; [True == 1]. *)
Definition int_eq (code : Z) (v : PyVal) : bool :=
  match v with
  | PyInt z => code =? z
  | PyBool b => code =? Z.b2z b
  | _ => false
  end.

(** [code in container]: a list is searched, a dictionary is searched
    by key (its keys are strings, never equal to an int), other values
    raise [TypeError]. *)
Definition py_contains (container : PyVal) (code : Z) : Exn + bool :=
  match container with
  | PyList l => inr (existsb (int_eq code) l)
  | PyDict _ => inr false
  | PyStr _ => inl (TypeError "'in <string>' requires string as left operand, not int")
  | _ => inl (TypeError "argument is not iterable")
  end.

(** [time.sleep(n)] with the monotonic clock at [now]: the exception
    it raises, or [None] when it sleeps. *)
Definition py_sleep (now : N) (n : Z) : option Exn :=
  if ((n <? - (int64_max / sec_to_ns)) || (int64_max / sec_to_ns <? n))%bool
  then Some (OverflowError "timestamp too large to convert to C _PyTime_t")
  else if n <? 0 then Some (ValueError "sleep length must be non-negative")
  else if int64_max <? Z.of_N now + n * sec_to_ns
  then Some (OSError "[Errno 22] Invalid argument")
  else None.

(** Lines 119-122: the delay for [time.sleep(int(r.headers['Retry-After']))]
    with the clock at [now]. A missing header is the [KeyError] of the
    [except] clause; a value [int] rejects raises [ValueError], and a
    delay [time.sleep] refuses raises what [time.sleep] raises: none of
    them is caught. *)
Definition retry_delay (now : N) (r : Response) : Exn + Z :=
  match header_get r "Retry-After" with
  | None => inl (KeyError "Retry-After header is not present.")
  | Some v =>
      match py_int v with
      | None => inl (ValueError "invalid literal for int() with base 10")
      | Some n =>
          match py_sleep now n with
          | Some e => inl e
          | None => inr n
          end
      end
  end.

(** The verdict of one iteration on the response it received. *)
Inductive Verdict : Type :=
  | Finish (o : Outcome)
  | Backoff (seconds : Z) (js : PyVal).

(** [if raw: return r else: return js]. *)
Definition give_back (raw : PyVal) (r : Response) (js : PyVal) : Outcome :=
  Returned (if truthy raw then Raw r else Decoded js).

(** Lines 102-136: the body of the loop after the request, with the
    monotonic clock at [now]. *)
Definition handle_response (self : SyncClient) (now : N) (return_on raw : PyVal)
    (r : Response) : Verdict :=
  match json r with
  | None => Finish (Raised JSONDecodeError)
  | Some js =>
      match py_contains return_on (status_code r) with
      | inl e => Finish (Raised e)
      | inr true => Finish (give_back raw r js)
      | inr false =>
          if status_code r =? 403 then Finish (Raised (Forbidden r js))
          else if status_code r =? 400 then Finish (Raised (BadRequest r js))
          else if status_code r =? 500 then Finish (Raised (InternalServerError r js))
          else if status_code r =? 429 then
            if negb (handle_ratelimit self) then Finish (Raised (TooManyRequests r js))
            else
              match retry_delay now r with
              | inl e => Finish (Raised e)
              | inr n => Backoff n js
              end
          else if ((200 <=? status_code r) && (status_code r <? 300))%bool then
            Finish (give_back raw r js)
          else Finish (Raised (OpenRobotAPIError js js r))
      end
  end.

(** [while tries is None or tries > 0]. *)
Definition loop_cond (tries : option Z) : bool :=
  match tries with
  | None => true
  | Some t => 0 <? t
  end.

(** [if tries: tries -= 1]; [None] and [0] are falsy. *)
Definition decrement (tries : option Z) : option Z :=
  match tries with
  | None => None
  | Some t => if t =? 0 then Some t else Some (t - 1)
  end.

Section Dispatch.

Variable self : SyncClient.
Variable srv : Server.
Variable method : string.

(** Lines 98-138. The state of the loop: the remaining [tries], the
    current binding of the locals [r] and [js] ([None] while unbound),
    the number of requests made so far and the trace so far. *)
Fixpoint retry_loop (fuel : nat) (p : Prepared) (tries : option Z)
    (last : option (Response * PyVal)) (n : nat) (tr : list Event)
  : option (Outcome * list Event) :=
  if loop_cond tries then
    match fuel with
    | O => None
    | S fuel' =>
        let tr := tr ++ [Sent method (p_url p) (p_kwargs p)] in
        match srv n method (p_url p) (p_kwargs p) with
        | None => Some (Raised ConnectionError, tr)
        | Some r =>
            match handle_response self (monotonic srv n)
                    (p_return_on p) (p_raw p) r with
            | Finish o => Some (o, tr)
            | Backoff secs js =>
                retry_loop fuel' p (decrement tries) (Some (r, js)) (S n)
                  (tr ++ [Slept secs])
            end
        end
    end
  else
    match last with
    | None => Some (Raised (UnboundLocalError "r"), tr)
    | Some (r, js) => Some (Raised (TooManyRequests r js), tr)
    end.

(** [self._request(method, url, **kwargs)]. *)
Definition _request (fuel : nat) (url : string) (kwargs : gmap string PyVal)
  : option (Outcome * list Event) :=
  match prepare self url kwargs with
  | inl e => Some (Raised e, [])
  | inr p => retry_loop fuel p (tries self) None 0%nat []
  end.

End Dispatch.


(* ===================================================================== *)
(** ** The endpoint methods                                               *)
(* ===================================================================== *)

(** How an endpoint method fails: with an exception that comes out of
    [_request], of a result class or of its own subscripting and
    iteration, or with the [OpenRobotAPIError(msg)] that [ocr] raises
    itself, which has a message and neither [raw] nor [response]. *)
Inductive Failure : Type :=
  | Propagated (e : Exn)
  | APIError (msg : string).

(** [js = self._request(...); return Cls(js)]: the result class is
    applied to what [_request] returned; an exception of [_request]
    passes through and the class is not called. *)
Definition construct {R : Type} (cls : Value -> Exn + R)
    (res : option (Outcome * list Event))
  : option ((Failure + R) * list Event) :=
  match res with
  | None => None
  | Some (Raised e, tr) => Some (inl (Propagated e), tr)
  | Some (Returned js, tr) =>
      match cls js with
      | inl e => Some (inl (Propagated e), tr)
      | inr v => Some (inr v, tr)
      end
  end.

(** [js[key]] for a string [key]: a dictionary is looked up and raises
    [KeyError(key)] for a missing key; everything else raises
    [TypeError]. *)
Definition subscript (js : Value) (key : string) : Exn + PyVal :=
  match js with
  | Decoded (PyDict d) =>
      match d !! key with
      | Some v => inr v
      | None => inl (KeyError key)
      end
  | Decoded (PyList _) => inl (TypeError "list indices must be integers or slices, not str")
  | Decoded (PyStr _) => inl (TypeError "string indices must be integers")
  | Decoded _ => inl (TypeError "object is not subscriptable")
  | Raw _ => inl (TypeError "'Response' object is not subscriptable")
  end.

(** [for data in v]: the elements of a list, the characters of a
    string, the keys of a dictionary in the order in which they were
    inserted (for a decoded body, the order of the JSON text); other
    values are not iterable. A [PyDict] does not record the order of
    insertion, so that is given by [key_order]. *)
Definition py_iter (key_order : gmap string PyVal -> list string) (v : PyVal)
  : Exn + list PyVal :=
  match v with
  | PyList l => inr l
  | PyStr s => inr (map (fun c => PyStr (String c EmptyString)) (list_ascii_of_string s))
  | PyDict d => inr (map PyStr (key_order d))
  | _ => inl (TypeError "object is not iterable")
  end.

(** [[Cls(data) for data in items]]: left to right, the first exception
    ends the comprehension. *)
Fixpoint construct_each {R : Type} (cls : PyVal -> Exn + R) (items : list PyVal)
  : Exn + list R :=
  match items with
  | [] => inr []
  | data :: rest =>
      match cls data with
      | inl e => inl e
      | inr v =>
          match construct_each cls rest with
          | inl e => inl e
          | inr vs => inr (v :: vs)
          end
      end
  end.

(** What [ocr] is given: a [str], an [io.BytesIO] (with the value its
    [getvalue()] returns), or anything else. *)
Inductive Source : Type :=
  | SourceStr (s : string)
  | SourceBytesIO (getvalue : PyVal)
  | SourceOther.

Section Endpoints.

Variable self : SyncClient.
Variable srv : Server.

(** Lines 13-20 bind [quote] to [urllib.parse.quote_plus], to
    [urllib.parse.quote] or to the identity, whichever import works:
    here it is whatever function was bound. *)
Variable quote : string -> string.

(** The order of the keys in the dictionaries of a decoded body (see
    [py_iter]). *)
Variable key_order : gmap string PyVal -> list string.

(** The result classes of [results.py], which is not part of the
    module: each takes what [_request] returned and gives an object or
    raises. [CelebrityResult] takes one element of the body. *)
Variable Obj : Type.
Variable TextGenerationResult : Value -> Exn + Obj.
Variable SentimentResult : Value -> Exn + Obj.
Variable SummarizationResult : Value -> Exn + Obj.
Variable LyricResult : Value -> Exn + Obj.
Variable NSFWCheckResult : Value -> Exn + Obj.
Variable CelebrityResult : PyVal -> Exn + Obj.
Variable OCRResult : Value -> Exn + Obj.

(** [self.text_generation(text, max_length=, num_return=)]. *)
Definition text_generation (fuel : nat) (text max_length num_return : PyVal)
  : option ((Failure + Obj) * list Event) :=
  construct TextGenerationResult
    (_request self srv "POST" fuel "/api/text-generation"
       {[ "data" := PyDict {[ "text" := text; "max_length" := max_length;
                              "num_return" := num_return ]} ]}).

(** [self.text_generation_get(task_id)]. *)
Definition text_generation_get (fuel : nat) (task_id : string)
  : option ((Failure + Obj) * list Event) :=
  construct TextGenerationResult
    (_request self srv "GET" fuel ("/api/text-generation/" +:+ quote task_id) ∅).

(** [self.sentiment(text)]. *)
Definition sentiment (fuel : nat) (text : PyVal)
  : option ((Failure + Obj) * list Event) :=
  construct SentimentResult
    (_request self srv "POST" fuel "/api/sentiment"
       {[ "data" := PyDict {[ "text" := text ]} ]}).

(** [self.sentiment_get(task_id)]. *)
Definition sentiment_get (fuel : nat) (task_id : string)
  : option ((Failure + Obj) * list Event) :=
  construct SentimentResult
    (_request self srv "GET" fuel ("/api/sentiment/" +:+ quote task_id) ∅).

(** [self.summarization(text, max_length=, min_length=)]. *)
Definition summarization (fuel : nat) (text max_length min_length : PyVal)
  : option ((Failure + Obj) * list Event) :=
  construct SummarizationResult
    (_request self srv "POST" fuel "/api/summarization"
       {[ "data" := PyDict {[ "text" := text; "max_length" := max_length;
                              "min_length" := min_length ]} ]}).

(** [self.summarization_get(task_id)]. *)
Definition summarization_get (fuel : nat) (task_id : string)
  : option ((Failure + Obj) * list Event) :=
  construct SummarizationResult
    (_request self srv "GET" fuel ("/api/summarization/" +:+ quote task_id) ∅).

(** [self.lyrics(query)]. *)
Definition lyrics (fuel : nat) (query : string)
  : option ((Failure + Obj) * list Event) :=
  construct LyricResult
    (_request self srv "GET" fuel ("/api/lyrics/" +:+ quote query) ∅).

(** [self.nsfw_check(url)]. *)
Definition nsfw_check (fuel : nat) (url : PyVal)
  : option ((Failure + Obj) * list Event) :=
  construct NSFWCheckResult
    (_request self srv "GET" fuel "/api/nsfw-check"
       {[ "params" := PyDict {[ "url" := url ]} ]}).

(** [return [CelebrityResult(data) for data in js['detectedFaces']]]. *)
Definition detected_faces (js : Value) : Exn + list Obj :=
  match subscript js "detectedFaces" with
  | inl e => inl e
  | inr faces =>
      match py_iter key_order faces with
      | inl e => inl e
      | inr items => construct_each CelebrityResult items
      end
  end.

(** [self.celebrity(url)]. *)
Definition celebrity (fuel : nat) (url : PyVal)
  : option ((Failure + list Obj) * list Event) :=
  construct detected_faces
    (_request self srv "GET" fuel "/api/celebrity"
       {[ "params" := PyDict {[ "url" := url ]} ]}).

(** [self.ocr(source)]. *)
Definition ocr (fuel : nat) (source : Source)
  : option ((Failure + Obj) * list Event) :=
  match source with
  | SourceStr s =>
      construct OCRResult
        (_request self srv "POST" fuel "/api/ocr"
           {[ "params" := PyDict {[ "url" := PyStr s ]} ]})
  | SourceBytesIO getvalue =>
      construct OCRResult
        (_request self srv "POST" fuel "/api/ocr"
           {[ "files" := PyDict {[ "upload_file" := getvalue ]} ]})
  | SourceOther => Some (inl (APIError "source must be a URL or BytesIO."), [])
  end.

End Endpoints.

(* ===================================================================== *)
(** ** Vocabulary of the statements                                       *)
(* ===================================================================== *)

Definition auth_headers (self : SyncClient) : PyVal :=
  PyDict {[ "Authorization" := PyStr (token self) ]}.

(** The test of line 75: the caller passed a dictionary with at least
    one entry under ['headers']. *)
Definition caller_dict (kwargs : gmap string PyVal) : bool :=
  (truthy (dict_get "headers" kwargs) && is_dict (dict_get "headers" kwargs))%bool.

(** The [i]-th request is answered by [resp i]: a 429 with the JSON
    body [body i] and a [Retry-After] that [time.sleep(int(...))]
    accepts with the clock as it is then, asking for [delay i] seconds. *)
Definition rate_limited_at (srv : Server) (method : string) (p : Prepared)
    (resp : nat -> Response) (body : nat -> PyVal) (delay : nat -> Z)
    (i : nat) : Prop :=
  srv i method (p_url p) (p_kwargs p) = Some (resp i)
  /\ status_code (resp i) = 429
  /\ json (resp i) = Some (body i)
  /\ retry_delay (monotonic srv i) (resp i) = inr (delay i).

(** The [i]-th request of a dispatch is answered by [resp i], and the
    loop body answers that by sleeping [delay i] seconds and going round
    again, [js] being [body i]. *)
Definition backs_off (self : SyncClient) (srv : Server) (method : string)
    (p : Prepared) (resp : nat -> Response) (body : nat -> PyVal)
    (delay : nat -> Z) (i : nat) : Prop :=
  srv i method (p_url p) (p_kwargs p) = Some (resp i)
  /\ handle_response self (monotonic srv i) (p_return_on p) (p_raw p) (resp i)
     = Backoff (delay i) (body i).

(** The tries allow [k] iterations: there is no bound, or the bound is
    at least [k]. *)
Definition tries_cover (tries : option Z) (k : nat) : Prop :=
  match tries with
  | None => True
  | Some t => Z.of_nat k <= t
  end.

(** The local [tries] after [k] back-offs that each found it positive. *)
Definition tries_after (tries : option Z) (k : nat) : option Z :=
  match tries with
  | None => None
  | Some t => Some (t - Z.of_nat k)
  end.

(** One round of the loop as the trace shows it. *)
Definition round (method : string) (p : Prepared) (delay : nat -> Z) (i : nat)
  : list Event :=
  [Sent method (p_url p) (p_kwargs p); Slept (delay i)].

(** What [r] and [js] are bound to after [k] more rounds from request
    number [n]. *)
Definition last_after (resp : nat -> Response) (body : nat -> PyVal)
    (last : option (Response * PyVal)) (n k : nat)
  : option (Response * PyVal) :=
  match k with
  | O => last
  | S k' => Some (resp (n + k')%nat, body (n + k')%nat)
  end.

(** The number of requests on a trace, and the number of sleeps. *)
Fixpoint requests_made (tr : list Event) : nat :=
  match tr with
  | [] => 0
  | Sent _ _ _ :: tr' => S (requests_made tr')
  | _ :: tr' => requests_made tr'
  end.

Fixpoint sleeps_taken (tr : list Event) : nat :=
  match tr with
  | [] => 0
  | Slept _ :: tr' => S (sleeps_taken tr')
  | _ :: tr' => sleeps_taken tr'
  end.

(** A trace in rounds: requests each followed by a sleep, and possibly
    one last request with no sleep after it; nothing else. *)
Fixpoint in_rounds (tr : list Event) : bool :=
  match tr with
  | [] => true
  | Sent _ _ _ :: rest =>
      match rest with
      | [] => true
      | Slept _ :: rest' => in_rounds rest'
      | _ :: _ => false
      end
  | _ :: _ => false
  end.

(** The trace of a call whose requests are all [req], and which, when
    the client's tries allow an iteration, begins with it: the call got
    past the header and URL steps and did not raise before the loop. *)
Definition requests_only (self : SyncClient) (req : Event) (tr : list Event) : Prop :=
  (forall m u kw, Sent m u kw ∈ tr -> Sent m u kw = req)
  /\ (tries_cover (tries self) 1 -> exists rest, tr = req :: rest).

(** The keyword arguments [_request] keeps for itself or replaces. *)
Definition control_keys : list string :=
  ["headers"; "return_on"; "raw"; "no_url_regex"].

(** [obj] is what the result class [cls] made of the decoded body of a
    response with a status in [200, 300) that the server gave to a
    request of [method] on [url] with keyword arguments [kw]. *)
Definition built_from_success {R : Type} (srv : Server) (method url : string)
    (kw : gmap string PyVal) (cls : Value -> Exn + R) (obj : R) : Prop :=
  exists i r js,
    srv i method url kw = Some r
    /\ 200 <= status_code r < 300
    /\ json r = Some js
    /\ cls (Decoded js) = inr obj.

(** The normalisation read off the words of the specification: drop one
    leading slash if there is one, drop four characters unless the rest
    begins with [api/], put the base URL in front. *)
Definition spec_normalize (target : string) : string :=
  let t := if startswith target "/" then slice_from 1 target else target in
  let t := if negb (startswith t "api/") then slice_from 4 t else t in
  base_url +:+ t.

(* ===================================================================== *)
(** ** A concrete client, request and servers                             *)
(* ===================================================================== *)

Definition demo_client : SyncClient := mkSyncClient "secret" true (Some 5).

Definition demo_strict_client : SyncClient := mkSyncClient "secret" false (Some 5).

Definition demo_prepared : Prepared :=
  mkPrepared "https://api.openrobot.xyz/api/sentiment"
    {[ "headers" := auth_headers demo_client ]} (PyList []) (PyBool false).

Definition demo_body : PyVal := PyDict {[ "message" := PyStr "hello" ]}.

Definition demo_response (code : Z) (hs : gmap string string) : Response :=
  mkResponse code hs (Some demo_body).

(** A server that gives the same answer to every request, on a
    machine whose clock has just started. *)
Definition always (r : Response) : Server :=
  mkServer (fun _ _ _ _ => Some r) (fun _ => 0%N).

(** A caller that lets 403 through and asks for the response object. *)
Definition demo_lenient_prepared : Prepared :=
  mkPrepared "https://api.openrobot.xyz/api/sentiment"
    {[ "headers" := auth_headers demo_client ]} (PyList [PyInt 403]) (PyBool true).

Definition demo_idle_client : SyncClient := mkSyncClient "secret" true (Some 0).

Definition demo_patient_client : SyncClient := mkSyncClient "secret" true (Some 2).

Definition demo_busy : Response := demo_response 429 {[ "retry-after" := "3" ]}.


(** A server that rate-limits the first request and answers [r] from
    then on. *)
Definition busy_then (r : Response) : Server :=
  mkServer (fun n _ _ _ => match n with O => Some demo_busy | S _ => Some r end)
           (fun _ => 0%N).

(* ===================================================================== *)
(** ** Construction                                                       *)
(* ===================================================================== *)

(** C9. A client built with a falsy token ([None] or the empty string)
    while [get_token_from_file] finds nothing raises [NoTokenProvided];
    a client built with the placeholder token ['I-Am-Testing'] and
    [ignore_warning=False] is built all the same, stores that token and
    emits exactly the usage warning. *)
Theorem init_token_resolution :
  (forall get_token_from_file tok ignore_warning hr tr,
      str_truthy tok = false ->
      str_truthy (get_token_from_file tt) = false ->
      __init__ get_token_from_file tok ignore_warning hr tr = (inl NoTokenProvided, []))
  /\ (forall get_token_from_file hr tr,
      __init__ get_token_from_file (Some testing_token) false hr tr
      = (inr (mkSyncClient testing_token hr tr), [Warned testing_warning])).
Proof.
  split.
  - intros gtf tok iw hr tr Htok Hfile.
    unfold __init__, str_or. rewrite Htok, Hfile. reflexivity.
  - intros gtf hr tr. reflexivity.
Qed.

Lemma init_token_resolution_witness :
  str_truthy None = false
  /\ str_truthy ((fun _ : unit => Some "") tt) = false
  /\ __init__ (fun _ => Some "") None false true (Some 5) = (inl NoTokenProvided, []).
Proof.
  split; [reflexivity|]. split; [reflexivity|].
  apply (proj1 init_token_resolution (fun _ => Some "") None false true (Some 5));
    reflexivity.
Defined.

(* ===================================================================== *)
(** ** Facts about the part before the loop                               *)
(* ===================================================================== *)

Lemma get_authorization_headers_default self :
  _get_authorization_headers self None true = auth_headers self.
Proof. reflexivity. Qed.

Lemma merge_headers_cases self kwargs :
  merge_headers self kwargs =
    if caller_dict kwargs then inl (KeyError "headers")
    else inr (<["headers" := auth_headers self]> kwargs).
Proof.
  unfold merge_headers, caller_dict, dict_pop.
  destruct (truthy _ && is_dict _)%bool; [|reflexivity].
  by rewrite lookup_delete_eq.
Qed.

Lemma caller_dict_absent kwargs :
  kwargs !! "headers" = None -> caller_dict kwargs = false.
Proof. unfold caller_dict, dict_get. by intros ->. Qed.

Lemma caller_dict_empty kwargs :
  kwargs !! "headers" = Some (PyDict ∅) -> caller_dict kwargs = false.
Proof. unfold caller_dict, dict_get. by intros ->. Qed.

Lemma caller_dict_nonempty kwargs d k v :
  kwargs !! "headers" = Some (PyDict d) -> d !! k = Some v ->
  caller_dict kwargs = true.
Proof.
  unfold caller_dict, dict_get. intros -> Hk. simpl.
  rewrite andb_true_r. apply negb_true_iff, Nat.eqb_neq.
  intros Hsz. apply map_size_empty_iff in Hsz. subst d.
  by rewrite lookup_empty in Hk.
Qed.

(** Whatever [prepare] lets through has the credential header as its
    only header, the base URL in front of the sliced target, and the
    caller's [return_on] and [raw] (or their defaults). *)
Lemma prepare_inr self url kwargs p :
  prepare self url kwargs = inr p ->
  caller_dict kwargs = false
  /\ url_regex_match (strip_url url) = false
  /\ truthy (default (PyBool false) (kwargs !! "no_url_regex")) = false
  /\ p_url p = base_url +:+ strip_url url
  /\ p_kwargs p !! "headers" = Some (auth_headers self)
  /\ p_return_on p = default (PyList []) (kwargs !! "return_on")
  /\ p_raw p = default (PyBool false) (kwargs !! "raw").
Proof.
  unfold prepare. rewrite merge_headers_cases.
  destruct (caller_dict kwargs); [discriminate|].
  unfold dict_pop, strip_url.
  set (u1 := if negb (startswith url "/") then slice_from 1 url else url).
  set (u2 := if negb (startswith u1 "api/") then slice_from 4 u1 else u1).
  destruct (url_regex_match u2); [discriminate|].
  rewrite !lookup_delete_ne, !lookup_insert_ne by done.
  destruct (truthy (default (PyBool false) (kwargs !! "no_url_regex")));
    [discriminate|].
  simpl. intros [= <-]. simpl.
  repeat split; try reflexivity.
  rewrite !lookup_delete_ne by done. by rewrite lookup_insert_eq.
Qed.

Lemma prepare_ok self url kwargs :
  caller_dict kwargs = false ->
  url_regex_match (strip_url url) = false ->
  truthy (default (PyBool false) (kwargs !! "no_url_regex")) = false ->
  exists p, prepare self url kwargs = inr p.
Proof.
  intros Hd Hre Hflag. unfold prepare. rewrite merge_headers_cases, Hd.
  unfold dict_pop. unfold strip_url in Hre. rewrite Hre.
  rewrite !lookup_delete_ne, !lookup_insert_ne by done.
  rewrite Hflag. simpl. eauto.
Qed.

(* ===================================================================== *)
(** ** Facts about the loop                                               *)
(* ===================================================================== *)

Section Loop.

Variable self : SyncClient.
Variable srv : Server.
Variable method : string.

Local Abbreviation loop := (retry_loop self srv method).
Local Abbreviation sent p := (Sent method (p_url p) (p_kwargs p)).

(** [_request] is [prepare] followed by the loop from its initial
    state: [r] and [js] unbound, no request made, nothing observed. *)
Lemma request_enters_loop fuel url kwargs p :
  prepare self url kwargs = inr p ->
  _request self srv method fuel url kwargs
  = loop fuel p (tries self) None 0%nat [].
Proof. unfold _request. by intros ->. Qed.

(** One iteration on the response [r]. *)
Lemma retry_loop_step fuel p tries last n tr r :
  loop_cond tries = true ->
  srv n method (p_url p) (p_kwargs p) = Some r ->
  loop (S fuel) p tries last n tr =
    match handle_response self (monotonic srv n) (p_return_on p) (p_raw p) r with
    | Finish o => Some (o, tr ++ [sent p])
    | Backoff secs js =>
        loop fuel p (decrement tries) (Some (r, js)) (S n)
          ((tr ++ [sent p]) ++ [Slept secs])
    end.
Proof. intros Hc Hr. simpl. by rewrite Hc, Hr. Qed.

(** Leaving the loop: line 138. *)
Lemma retry_loop_exit fuel p tries last n tr :
  loop_cond tries = false ->
  loop fuel p tries last n tr =
    match last with
    | None => Some (Raised (UnboundLocalError "r"), tr)
    | Some (r, js) => Some (Raised (TooManyRequests r js), tr)
    end.
Proof. intros Hc. destruct fuel; simpl; by rewrite Hc. Qed.

(** More fuel never changes a result. *)
Lemma retry_loop_fuel_mono fuel fuel' p tries last n tr res :
  (fuel <= fuel')%nat ->
  loop fuel p tries last n tr = Some res ->
  loop fuel' p tries last n tr = Some res.
Proof.
  revert fuel' tries last n tr.
  induction fuel as [|fuel IH]; intros fuel' tries last n tr Hle H.
  - simpl in H. destruct (loop_cond tries) eqn:Hc; [discriminate|].
    by rewrite retry_loop_exit in * by done.
  - destruct fuel' as [|fuel']; [lia|].
    simpl in *. destruct (loop_cond tries); [|done].
    destruct (srv n method (p_url p) (p_kwargs p)); [|done].
    destruct (handle_response _ _ _ _ _); [done|].
    apply IH; [lia|done].
Qed.

(** With a bound on the tries the loop always comes to an end: every
    iteration that goes round again takes one off a positive bound. *)
Lemma retry_loop_bounded_terminates fuel p t last n tr :
  (Z.to_nat t <= fuel)%nat ->
  exists res, loop fuel p (Some t) last n tr = Some res.
Proof.
  revert t last n tr.
  induction fuel as [|fuel IH]; intros t last n tr Hle.
  - rewrite retry_loop_exit by (simpl; lia). destruct last as [[??]|]; eauto.
  - destruct (decide (0 < t)) as [Hpos|Hnpos].
    + simpl. replace (0 <? t) with true by lia.
      destruct (srv n method (p_url p) (p_kwargs p)); [|eauto].
      destruct (handle_response _ _ _ _ _); [eauto|].
      replace (t =? 0) with false by lia.
      apply IH. lia.
    + rewrite retry_loop_exit by (simpl; lia). destruct last as [[??]|]; eauto.
Qed.

(** The loop only ever appends to the trace, and what it appends are
    requests for the prepared URL with the prepared keyword arguments,
    and sleeps. *)
Lemma retry_loop_trace fuel p tries last n tr o tr' :
  loop fuel p tries last n tr = Some (o, tr') ->
  exists ext, tr' = tr ++ ext
    /\ Forall (fun e => e = sent p \/ exists s, e = Slept s) ext.
Proof.
  revert tries last n tr.
  induction fuel as [|fuel IH]; intros tries last n tr H.
  - destruct (loop_cond tries) eqn:Hc;
      [simpl in H; rewrite Hc in H; discriminate|].
    rewrite retry_loop_exit in H by done.
    exists []. rewrite app_nil_r.
    destruct last as [[??]|]; by injection H as _ <-.
  - destruct (loop_cond tries) eqn:Hc.
    + simpl in H. rewrite Hc in H.
      destruct (srv n method (p_url p) (p_kwargs p)).
      * destruct (handle_response _ _ _ _ _).
        -- injection H as _ <-. exists [sent p]. split; [done|].
           constructor; [by left|constructor].
        -- apply IH in H as (ext & -> & Hext).
           exists (sent p :: Slept seconds :: ext).
           split; [by rewrite <- !app_assoc|].
           constructor; [by left|]. constructor; [right; eauto|done].
      * injection H as _ <-. exists [sent p]. split; [done|].
        constructor; [by left|constructor].
    + rewrite retry_loop_exit in H by done.
      exists []. rewrite app_nil_r.
      destruct last as [[??]|]; by injection H as _ <-.
Qed.

End Loop.

Lemma demo_prepare :
  prepare demo_client "/api/sentiment" ∅ = inr demo_prepared.
Proof. reflexivity. Qed.

Lemma demo_strict_prepare :
  prepare demo_strict_client "/api/sentiment" ∅ = inr demo_prepared.
Proof. reflexivity. Qed.

(* ===================================================================== *)
(** ** Rounds of the loop                                                 *)
(* ===================================================================== *)

Section Rounds.

Variable self : SyncClient.
Variable srv : Server.
Variable method : string.
Variable p : Prepared.
Variable resp : nat -> Response.
Variable body : nat -> PyVal.
Variable delay : nat -> Z.

Local Abbreviation loop := (retry_loop self srv method).
Local Abbreviation sent := (Sent method (p_url p) (p_kwargs p)).
Local Abbreviation backs_off := (backs_off self srv method p resp body delay).
Local Abbreviation round := (round method p delay).
Local Abbreviation last_after := (last_after resp body).

Lemma tries_cover_loop_cond tries k :
  tries_cover tries (S k) -> loop_cond (tries_after tries k) = true.
Proof. destruct tries as [t|]; simpl; [|done]. intros H. apply Z.ltb_lt. lia. Qed.

Lemma tries_cover_decrement tries k :
  tries_cover tries (S k) ->
  decrement tries = tries_after tries 1 /\ tries_cover (decrement tries) k.
Proof.
  destruct tries as [t|]; simpl; [|done]. intros H.
  replace (t =? 0) with false by (symmetry; apply Z.eqb_neq; lia).
  simpl. split; [done|lia].
Qed.

Lemma tries_after_0 tries : tries_after tries 0 = tries.
Proof. destruct tries as [t|]; simpl; [|done]. f_equal. lia. Qed.

Lemma tries_after_S tries k :
  tries_after (tries_after tries 1) k = tries_after tries (S k).
Proof. destruct tries as [t|]; simpl; [|done]. f_equal. lia. Qed.

(** [k] iterations that each end in a back-off: [k] rounds on the
    trace, [k] off the tries, [r] and [js] bound to the latest answer. *)
Lemma retry_loop_rounds k : forall fuel tries last n tr,
  (forall i, (n <= i < n + k)%nat -> backs_off i) ->
  tries_cover tries k ->
  loop (k + fuel) p tries last n tr
  = loop fuel p (tries_after tries k) (last_after last n k) (n + k)
      (tr ++ flat_map round (seq n k)).
Proof.
  induction k as [|k IH]; intros fuel tries last n tr Hback Hcover.
  - simpl. by rewrite tries_after_0, Nat.add_0_r, app_nil_r.
  - destruct (Hback n ltac:(lia)) as [Hsrv Hverdict].
    destruct (tries_cover_decrement tries k Hcover) as [Hdec Hcover'].
    replace (S k + fuel)%nat with (S (k + fuel)) by lia.
    rewrite (retry_loop_step self srv method _ p tries last n tr (resp n));
      [|by rewrite <- (tries_after_0 tries); apply tries_cover_loop_cond;
          destruct tries; simpl in *; [lia|done]
       |done].
    rewrite Hverdict.
    rewrite IH; [|intros i Hi; apply Hback; lia|done].
    rewrite Hdec, tries_after_S.
    replace (S n + k)%nat with (n + S k)%nat by lia.
    f_equal.
    + destruct k as [|k]; simpl; [by rewrite Nat.add_0_r|].
      by replace (n + S k)%nat with (S (n + k)) by lia.
    + simpl. by rewrite <- !app_assoc.
Qed.

End Rounds.

(** A dispatch that backs off [k] times and whose next response makes
    the loop body finish with outcome [o] has that outcome; it has made
    [k] rounds and one more request. *)
Lemma request_finishes self srv method fuel url kwargs p resp body delay k r o :
  prepare self url kwargs = inr p ->
  tries_cover (tries self) (S k) ->
  (forall i, (i < k)%nat -> backs_off self srv method p resp body delay i) ->
  srv k method (p_url p) (p_kwargs p) = Some r ->
  handle_response self (monotonic srv k) (p_return_on p) (p_raw p) r = Finish o ->
  _request self srv method (S k + fuel) url kwargs
  = Some (o, flat_map (round method p delay) (seq 0 k)
             ++ [Sent method (p_url p) (p_kwargs p)]).
Proof.
  intros Hp Hcover Hback Hr Ho.
  rewrite (request_enters_loop _ _ _ _ _ _ p Hp).
  replace (S k + fuel)%nat with (k + S fuel)%nat by lia.
  rewrite (retry_loop_rounds self srv method p resp body delay k);
    [|intros i Hi; apply Hback; lia
     |destruct (tries self); simpl in *; [lia|done]].
  rewrite (retry_loop_step self srv method fuel p _ _ _ _ r);
    [|by apply tries_cover_loop_cond|done].
  change (0 + k)%nat with k. by rewrite Ho.
Qed.

(** With rate-limit handling off no iteration goes round again: the
    first response of a dispatch is its only one. *)
Lemma unhandled_never_backs_off self now return_on raw r secs js :
  handle_ratelimit self = false ->
  handle_response self now return_on raw r <> Backoff secs js.
Proof.
  intros Hh. unfold handle_response. rewrite Hh. simpl.
  destruct (json r); [|done].
  destruct (py_contains return_on (status_code r)) as [e|[]]; [done|done|].
  repeat (match goal with |- context [if ?b then _ else _] => destruct b end;
          try done).
Qed.

(* ===================================================================== *)
(** ** The status rules                                                   *)
(* ===================================================================== *)

(** C7. A response with status 403, 400 or 500 outside the pass-through
    set makes the dispatch raise [Forbidden], [BadRequest] or
    [InternalServerError], carrying the response and its decoded body.
    The response may be the first of the dispatch or come after [k]
    back-offs; the request that got it is the last thing observed. *)
Theorem error_status_raises self srv method fuel url kwargs p resp body delay k r js :
  prepare self url kwargs = inr p ->
  tries_cover (tries self) (S k) ->
  (forall i, (i < k)%nat -> backs_off self srv method p resp body delay i) ->
  srv k method (p_url p) (p_kwargs p) = Some r ->
  json r = Some js ->
  py_contains (p_return_on p) (status_code r) = inr false ->
  (status_code r = 403 ->
     _request self srv method (S k + fuel) url kwargs
     = Some (Raised (Forbidden r js),
             flat_map (round method p delay) (seq 0 k)
             ++ [Sent method (p_url p) (p_kwargs p)]))
  /\ (status_code r = 400 ->
     _request self srv method (S k + fuel) url kwargs
     = Some (Raised (BadRequest r js),
             flat_map (round method p delay) (seq 0 k)
             ++ [Sent method (p_url p) (p_kwargs p)]))
  /\ (status_code r = 500 ->
     _request self srv method (S k + fuel) url kwargs
     = Some (Raised (InternalServerError r js),
             flat_map (round method p delay) (seq 0 k)
             ++ [Sent method (p_url p) (p_kwargs p)])).
Proof.
  intros Hp Hcover Hback Hr Hjs Hin.
  split; [|split]; intros Hst;
    apply (request_finishes _ _ _ _ _ _ p resp body delay k r); try done;
    unfold handle_response; by rewrite Hjs, Hin, Hst.
Qed.

(** C8. A response whose status is in the pass-through set, or is in
    [200, 300), makes the dispatch return at once: the response object
    when [raw] is truthy, the decoded body otherwise. Membership in the
    pass-through set is looked at first, whatever the status, so it
    goes before the rules for 403, 400, 500 and 429. *)
Theorem pass_through_or_success_returns
    self srv method fuel url kwargs p resp body delay k r js :
  prepare self url kwargs = inr p ->
  tries_cover (tries self) (S k) ->
  (forall i, (i < k)%nat -> backs_off self srv method p resp body delay i) ->
  srv k method (p_url p) (p_kwargs p) = Some r ->
  json r = Some js ->
  py_contains (p_return_on p) (status_code r) = inr true
  \/ (py_contains (p_return_on p) (status_code r) = inr false
      /\ 200 <= status_code r < 300) ->
  _request self srv method (S k + fuel) url kwargs
  = Some (Returned (if truthy (p_raw p) then Raw r else Decoded js),
          flat_map (round method p delay) (seq 0 k)
          ++ [Sent method (p_url p) (p_kwargs p)]).
Proof.
  intros Hp Hcover Hback Hr Hjs Hcase.
  apply (request_finishes _ _ _ _ _ _ p resp body delay k r); try done.
  unfold handle_response. rewrite Hjs.
  destruct Hcase as [-> | [-> Hrange]]; [reflexivity|].
  replace (status_code r =? 403) with false by lia.
  replace (status_code r =? 400) with false by lia.
  replace (status_code r =? 500) with false by lia.
  replace (status_code r =? 429) with false by lia.
  replace (200 <=? status_code r) with true by lia.
  replace (status_code r <? 300) with true by lia.
  reflexivity.
Qed.

(** C6. With rate-limit handling switched off, a 429 outside the
    pass-through set makes the dispatch raise [TooManyRequests] with
    that response and its decoded body: one request, no sleep, nothing
    after it. (With handling off the first response is the only one,
    [unhandled_never_backs_off].) *)
Theorem rate_limit_unhandled_raises self (srv : Server) method fuel url kwargs p r js :
  handle_ratelimit self = false ->
  prepare self url kwargs = inr p ->
  tries_cover (tries self) 1 ->
  srv 0%nat method (p_url p) (p_kwargs p) = Some r ->
  json r = Some js ->
  status_code r = 429 ->
  py_contains (p_return_on p) 429 = inr false ->
  _request self srv method (S fuel) url kwargs
  = Some (Raised (TooManyRequests r js), [Sent method (p_url p) (p_kwargs p)]).
Proof.
  intros Hh Hp Hcover Hr Hjs Hst Hin.
  apply (request_finishes self srv method fuel url kwargs p
           (fun _ => r) (fun _ => js) (fun _ => 0) 0 r); try done.
  - intros i Hi. lia.
  - unfold handle_response. by rewrite Hjs, Hst, Hin, Hh.
Qed.

(** C5. With rate-limit handling switched on, a 429 outside the
    pass-through set that has no [Retry-After] header makes the dispatch
    raise [KeyError], a lookup error, without sleeping for it and
    without another request, be it the first response or one that
    comes after [k] back-offs. *)
Theorem missing_retry_after_raises
    self srv method fuel url kwargs p resp body delay k r js :
  handle_ratelimit self = true ->
  prepare self url kwargs = inr p ->
  tries_cover (tries self) (S k) ->
  (forall i, (i < k)%nat -> backs_off self srv method p resp body delay i) ->
  srv k method (p_url p) (p_kwargs p) = Some r ->
  json r = Some js ->
  status_code r = 429 ->
  py_contains (p_return_on p) 429 = inr false ->
  header_get r "Retry-After" = None ->
  _request self srv method (S k + fuel) url kwargs
  = Some (Raised (KeyError "Retry-After header is not present."),
          flat_map (round method p delay) (seq 0 k)
          ++ [Sent method (p_url p) (p_kwargs p)])
  /\ is_LookupError (KeyError "Retry-After header is not present.") = true.
Proof.
  intros Hh Hp Hcover Hback Hr Hjs Hst Hin Hhdr. split; [|reflexivity].
  apply (request_finishes _ _ _ _ _ _ p resp body delay k r); try done.
  unfold handle_response, retry_delay.
  by rewrite Hjs, Hst, Hin, Hh, Hhdr.
Qed.

Lemma demo_lenient_prepare :
  prepare demo_client "/api/sentiment"
    {[ "return_on" := PyList [PyInt 403]; "raw" := PyBool true ]}
  = inr demo_lenient_prepared.
Proof. reflexivity. Qed.

Lemma error_status_raises_witness :
  _request demo_client (busy_then (demo_response 403 ∅)) "GET" 2 "/api/sentiment" ∅
  = Some (Raised (Forbidden (demo_response 403 ∅) demo_body),
          [Sent "GET" (p_url demo_prepared) (p_kwargs demo_prepared); Slept 3;
           Sent "GET" (p_url demo_prepared) (p_kwargs demo_prepared)])
  /\ _request demo_client (always (demo_response 400 ∅)) "GET" 1 "/api/sentiment" ∅
  = Some (Raised (BadRequest (demo_response 400 ∅) demo_body),
          [Sent "GET" (p_url demo_prepared) (p_kwargs demo_prepared)])
  /\ _request demo_client (always (demo_response 500 ∅)) "GET" 1 "/api/sentiment" ∅
  = Some (Raised (InternalServerError (demo_response 500 ∅) demo_body),
          [Sent "GET" (p_url demo_prepared) (p_kwargs demo_prepared)]).
Proof.
  split; [|split].
  - refine (proj1 (error_status_raises demo_client (busy_then (demo_response 403 ∅))
      "GET" 0 "/api/sentiment" ∅ demo_prepared
      (fun _ => demo_busy) (fun _ => demo_body) (fun _ => 3) 1
      (demo_response 403 ∅) demo_body eq_refl _ _ eq_refl eq_refl eq_refl) eq_refl).
    + simpl. lia.
    + intros i Hi. destruct i; [split; reflexivity|lia].
  - refine (proj1 (proj2 (error_status_raises demo_client (always (demo_response 400 ∅))
      "GET" 0 "/api/sentiment" ∅ demo_prepared
      (fun _ => demo_busy) (fun _ => demo_body) (fun _ => 3) 0
      (demo_response 400 ∅) demo_body eq_refl _ _ eq_refl eq_refl eq_refl)) eq_refl).
    + simpl. lia.
    + intros i Hi. lia.
  - refine (proj2 (proj2 (error_status_raises demo_client (always (demo_response 500 ∅))
      "GET" 0 "/api/sentiment" ∅ demo_prepared
      (fun _ => demo_busy) (fun _ => demo_body) (fun _ => 3) 0
      (demo_response 500 ∅) demo_body eq_refl _ _ eq_refl eq_refl eq_refl)) eq_refl).
    + simpl. lia.
    + intros i Hi. lia.
Defined.

Lemma pass_through_or_success_returns_witness :
  _request demo_client (always (demo_response 403 ∅)) "GET" 1 "/api/sentiment"
    {[ "return_on" := PyList [PyInt 403]; "raw" := PyBool true ]}
  = Some (Returned (Raw (demo_response 403 ∅)),
          [Sent "GET" (p_url demo_lenient_prepared) (p_kwargs demo_lenient_prepared)])
  /\ _request demo_client (busy_then (demo_response 204 ∅)) "GET" 2 "/api/sentiment" ∅
  = Some (Returned (Decoded demo_body),
          [Sent "GET" (p_url demo_prepared) (p_kwargs demo_prepared); Slept 3;
           Sent "GET" (p_url demo_prepared) (p_kwargs demo_prepared)]).
Proof.
  split.
  - refine (pass_through_or_success_returns demo_client (always (demo_response 403 ∅))
      "GET" 0 "/api/sentiment"
      {[ "return_on" := PyList [PyInt 403]; "raw" := PyBool true ]}
      demo_lenient_prepared
      (fun _ => demo_busy) (fun _ => demo_body) (fun _ => 3) 0
      (demo_response 403 ∅) demo_body eq_refl _ _ eq_refl eq_refl
      (or_introl eq_refl)).
    + simpl. lia.
    + intros i Hi. lia.
  - refine (pass_through_or_success_returns demo_client (busy_then (demo_response 204 ∅))
      "GET" 0 "/api/sentiment" ∅ demo_prepared
      (fun _ => demo_busy) (fun _ => demo_body) (fun _ => 3) 1
      (demo_response 204 ∅) demo_body eq_refl _ _ eq_refl eq_refl
      (or_intror (conj eq_refl _))).
    + simpl. lia.
    + intros i Hi. destruct i; [split; reflexivity|lia].
    + simpl. lia.
Defined.

Lemma rate_limit_unhandled_raises_witness :
  _request demo_strict_client (always demo_busy) "GET" 1 "/api/sentiment" ∅
  = Some (Raised (TooManyRequests demo_busy demo_body),
          [Sent "GET" (p_url demo_prepared) (p_kwargs demo_prepared)]).
Proof.
  refine (rate_limit_unhandled_raises demo_strict_client (always demo_busy)
    "GET" 0 "/api/sentiment" ∅ demo_prepared demo_busy demo_body
    eq_refl eq_refl _ eq_refl eq_refl eq_refl eq_refl).
  simpl. lia.
Defined.

Lemma missing_retry_after_raises_witness :
  _request demo_client (busy_then (demo_response 429 ∅)) "GET" 2 "/api/sentiment" ∅
  = Some (Raised (KeyError "Retry-After header is not present."),
          [Sent "GET" (p_url demo_prepared) (p_kwargs demo_prepared); Slept 3;
           Sent "GET" (p_url demo_prepared) (p_kwargs demo_prepared)]).
Proof.
  refine (proj1 (missing_retry_after_raises demo_client
    (busy_then (demo_response 429 ∅)) "GET" 0 "/api/sentiment" ∅ demo_prepared
    (fun _ => demo_busy) (fun _ => demo_body) (fun _ => 3) 1
    (demo_response 429 ∅) demo_body
    eq_refl eq_refl _ _ eq_refl eq_refl eq_refl eq_refl eq_refl)).
  - simpl. lia.
  - intros i Hi. destruct i; [split; reflexivity|lia].
Defined.

(* ===================================================================== *)
(** ** The bound on the tries                                             *)
(* ===================================================================== *)

(** C10. When the client's [tries] is an integer that is zero or
    negative, a dispatch that gets as far as the loop makes no request
    at all, and the final [raise TooManyRequests(r, js)] reads the local
    [r], which was never bound: the call ends in [UnboundLocalError], a
    [NameError]. *)
Theorem nonpositive_tries_name_error self srv method fuel url kwargs p N :
  tries self = Some N ->
  N <= 0 ->
  prepare self url kwargs = inr p ->
  _request self srv method fuel url kwargs
  = Some (Raised (UnboundLocalError "r"), [])
  /\ is_NameError (UnboundLocalError "r") = true.
Proof.
  intros Ht HN Hp. split; [|reflexivity].
  rewrite (request_enters_loop _ _ _ _ _ _ p Hp), Ht.
  apply (retry_loop_exit self srv method fuel p (Some N) None 0 []).
  simpl. lia.
Qed.

Lemma nonpositive_tries_name_error_witness :
  _request demo_idle_client (always (demo_response 200 ∅)) "GET" 7 "/api/sentiment" ∅
  = Some (Raised (UnboundLocalError "r"), []).
Proof.
  refine (proj1 (nonpositive_tries_name_error demo_idle_client
    (always (demo_response 200 ∅)) "GET" 7 "/api/sentiment" ∅
    (mkPrepared "https://api.openrobot.xyz/api/sentiment"
       {[ "headers" := auth_headers demo_idle_client ]} (PyList []) (PyBool false))
    0 eq_refl _ eq_refl)).
  lia.
Defined.

(** A client that handles rate limits backs off on a rate-limited
    answer, unless the caller lets 429 through. *)
Lemma rate_limited_backs_off self srv method p resp body delay i :
  handle_ratelimit self = true ->
  py_contains (p_return_on p) 429 = inr false ->
  rate_limited_at srv method p resp body delay i ->
  backs_off self srv method p resp body delay i.
Proof.
  intros Hh Hin (Hsrv & Hst & Hjs & Hd). split; [done|].
  unfold handle_response. by rewrite Hjs, Hst, Hin, Hh, Hd.
Qed.


(** C4. With rate-limit handling on and [tries = N >= 1], against a
    server that answers each of the [N] requests with a 429 carrying a
    usable [Retry-After] (and 429 not let through by the caller), the
    dispatch makes exactly [N] rounds of request and sleep and then
    raises [TooManyRequests] with the last response and its body. And
    whatever the server does, with a bound on the tries the dispatch
    comes to an end: [N] units of fuel always suffice. *)
Theorem rate_limit_retries_exhaust :
  (forall self srv method url kwargs p N resp body delay fuel,
     handle_ratelimit self = true ->
     tries self = Some N ->
     1 <= N ->
     prepare self url kwargs = inr p ->
     py_contains (p_return_on p) 429 = inr false ->
     (forall i, (i < Z.to_nat N)%nat ->
        rate_limited_at srv method p resp body delay i) ->
     (Z.to_nat N <= fuel)%nat ->
     _request self srv method fuel url kwargs
     = Some (Raised (TooManyRequests (resp (Z.to_nat N - 1)%nat)
                                     (body (Z.to_nat N - 1)%nat)),
             flat_map (round method p delay) (seq 0 (Z.to_nat N))))
  /\ (forall self srv method url kwargs N fuel,
     tries self = Some N ->
     (Z.to_nat N <= fuel)%nat ->
     exists res, _request self srv method fuel url kwargs = Some res).
Proof.
  split.
  - intros self srv method url kwargs p N resp body delay fuel
      Hh Ht HN Hp Hin Hlim Hfuel.
    rewrite (request_enters_loop _ _ _ _ _ _ p Hp), Ht.
    replace fuel with (Z.to_nat N + (fuel - Z.to_nat N))%nat by lia.
    rewrite (retry_loop_rounds self srv method p resp body delay (Z.to_nat N));
      [|intros i Hi; apply rate_limited_backs_off; [done|done|apply Hlim; lia]
       |simpl; lia].
    rewrite retry_loop_exit by (simpl; apply Z.ltb_ge; lia).
    destruct (Z.to_nat N) as [|k] eqn:Hk; [lia|].
    replace (S k - 1)%nat with k by lia. reflexivity.
  - intros self srv method url kwargs N fuel Ht Hfuel.
    unfold _request. destruct (prepare self url kwargs) as [e|p]; [eauto|].
    rewrite Ht. by apply retry_loop_bounded_terminates.
Qed.

Lemma rate_limit_retries_exhaust_witness :
  _request demo_patient_client (always demo_busy) "GET" 2 "/api/sentiment" ∅
  = Some (Raised (TooManyRequests demo_busy demo_body),
          [Sent "GET" (p_url demo_prepared) (p_kwargs demo_prepared); Slept 3;
           Sent "GET" (p_url demo_prepared) (p_kwargs demo_prepared); Slept 3])
  /\ exists res,
       _request demo_patient_client (always (demo_response 200 ∅)) "GET" 2
         "/api/sentiment" ∅ = Some res.
Proof.
  split.
  - refine (proj1 rate_limit_retries_exhaust demo_patient_client (always demo_busy)
      "GET" "/api/sentiment" ∅ demo_prepared 2
      (fun _ => demo_busy) (fun _ => demo_body) (fun _ => 3) 2%nat
      eq_refl eq_refl _ eq_refl eq_refl
      (fun i _ => conj eq_refl (conj eq_refl (conj eq_refl eq_refl))) _).
    + lia.
    + simpl. lia.
  - refine (proj2 rate_limit_retries_exhaust demo_patient_client
      (always (demo_response 200 ∅)) "GET" "/api/sentiment" ∅ 2 2%nat eq_refl _).
    simpl. lia.
Defined.

(* ===================================================================== *)
(** ** What reaches the transport                                         *)
(* ===================================================================== *)

(** Every request of a dispatch is made with the method given, the URL
    and the keyword arguments that [prepare] produced. *)
Lemma request_sent_events self srv method fuel url kwargs o tr m u kw :
  _request self srv method fuel url kwargs = Some (o, tr) ->
  Sent m u kw ∈ tr ->
  exists p, prepare self url kwargs = inr p
    /\ m = method /\ u = p_url p /\ kw = p_kwargs p.
Proof.
  unfold _request. destruct (prepare self url kwargs) as [e|p] eqn:Hp.
  - intros [= _ <-] Hin. by apply elem_of_nil in Hin.
  - intros Hloop Hin. exists p. split; [done|].
    apply retry_loop_trace in Hloop as (ext & -> & Hext).
    rewrite app_nil_l in Hin.
    rewrite Forall_forall in Hext.
    destruct (Hext _ Hin) as [[= -> -> ->]|[s [=]]]. done.
Qed.

(** Whatever the caller passes, a request that is sent carries the
    credential header and nothing else as its headers. *)
Lemma request_sent_headers self srv method fuel url kwargs o tr m u kw :
  _request self srv method fuel url kwargs = Some (o, tr) ->
  Sent m u kw ∈ tr ->
  kw !! "headers" = Some (auth_headers self).
Proof.
  intros H Hin.
  destruct (request_sent_events _ _ _ _ _ _ _ _ _ _ _ H Hin) as (p & Hp & _ & _ & ->).
  by apply prepare_inr in Hp as (_ & _ & _ & _ & Hh & _).
Qed.

(* ===================================================================== *)
(** ** Headers                                                            *)
(* ===================================================================== *)

(** Any caller dictionary with an entry in it ends the dispatch in
    [KeyError] with nothing sent, whatever the target and the server. *)
Lemma caller_dict_raises self srv method fuel url kwargs d k v :
  kwargs !! "headers" = Some (PyDict d) ->
  d !! k = Some v ->
  _request self srv method fuel url kwargs = Some (Raised (KeyError "headers"), []).
Proof.
  intros Hh Hk. unfold _request, prepare.
  by rewrite merge_headers_cases, (caller_dict_nonempty kwargs d k v Hh Hk).
Qed.

(** C2, on the code. A caller dictionary with an entry in it, with or
    without an [Authorization] of its own, is not merged: line 76 pops
    ['headers'] and line 77 subscripts [kwargs] with that key, so the
    dispatch ends in [KeyError] before anything is sent. *)
Theorem caller_headers_key_error :
  _request demo_client (always (demo_response 200 ∅)) "GET" 1 "/api/sentiment"
    {[ "headers" := PyDict {[ "Authorization" := PyStr "mine" ]} ]}
  = Some (Raised (KeyError "headers"), [])
  /\ _request demo_client (always (demo_response 200 ∅)) "GET" 1 "/api/sentiment"
    {[ "headers" := PyDict {[ "Accept" := PyStr "application/json" ]} ]}
  = Some (Raised (KeyError "headers"), []).
Proof. split; reflexivity. Qed.

(** When the caller passes no headers, or an empty headers dictionary
    (which is falsy), the merge does not fail and puts the
    credential header [{'Authorization': token}] in place; every request
    the dispatch then sends carries exactly that header. *)
Lemma credential_header_injected self kwargs :
  kwargs !! "headers" = None \/ kwargs !! "headers" = Some (PyDict ∅) ->
  merge_headers self kwargs
  = inr (<["headers" := PyDict {[ "Authorization" := PyStr (token self) ]}]> kwargs)
  /\ forall srv method fuel url o tr m u kw,
       _request self srv method fuel url kwargs = Some (o, tr) ->
       Sent m u kw ∈ tr ->
       kw !! "headers" = Some (PyDict {[ "Authorization" := PyStr (token self) ]}).
Proof.
  intros Hcaller. split.
  - rewrite merge_headers_cases.
    destruct Hcaller as [H|H];
      [rewrite (caller_dict_absent _ H)|rewrite (caller_dict_empty _ H)];
      reflexivity.
  - intros srv method fuel url o tr m u kw Hreq Hin.
    exact (request_sent_headers _ _ _ _ _ _ _ _ _ _ _ Hreq Hin).
Qed.

Example credential_header_injected_on_empty :
  merge_headers demo_client {[ "headers" := PyDict ∅ ]}
  = inr {[ "headers" := PyDict {[ "Authorization" := PyStr "secret" ]} ]}.
Proof.
  refine (eq_trans (proj1 (credential_header_injected demo_client
    {[ "headers" := PyDict ∅ ]} (or_intror eq_refl))) _).
  reflexivity.
Qed.

(* ===================================================================== *)
(** ** The URL                                                            *)
(* ===================================================================== *)

(** When [prepare] gets past the headers, it raises [TypeError] exactly
    when the sliced target matches the pattern or [no_url_regex] is
    truthy; otherwise the base URL goes in front of the sliced target. *)
Lemma prepare_url_gate self url kwargs :
  caller_dict kwargs = false ->
  (url_regex_match (strip_url url) = true
   \/ truthy (default (PyBool false) (kwargs !! "no_url_regex")) = true ->
   prepare self url kwargs = inl (TypeError "URL is not a valid HTTP/HTTPs URL."))
  /\ (url_regex_match (strip_url url) = false ->
      truthy (default (PyBool false) (kwargs !! "no_url_regex")) = false ->
      exists p, prepare self url kwargs = inr p
        /\ p_url p = base_url +:+ strip_url url).
Proof.
  intros Hd. split.
  - intros Hcase. unfold prepare. rewrite merge_headers_cases, Hd.
    unfold dict_pop. unfold strip_url in Hcase.
    destruct (url_regex_match _); [reflexivity|].
    destruct Hcase as [?|Hflag]; [discriminate|].
    rewrite !lookup_delete_ne, !lookup_insert_ne by done.
    by rewrite Hflag.
  - intros Hre Hflag.
    destruct (prepare_ok self url kwargs Hd Hre Hflag) as [p Hp].
    exists p. split; [done|].
    by apply prepare_inr in Hp as (_ & _ & _ & Hu & _).
Qed.

(** Every absolute URL on either allowed host is sliced and prefixed,
    never kept. *)
Lemma allowed_host_url_rewritten self rest kwargs :
  caller_dict kwargs = false ->
  truthy (default (PyBool false) (kwargs !! "no_url_regex")) = false ->
  (exists p, prepare self ("https://api.openrobot.xyz/" +:+ rest) kwargs = inr p
     /\ p_url p = "https://api.openrobot.xyz/api://api.openrobot.xyz/" +:+ rest)
  /\ (exists p, prepare self ("https://lyrics.ayomerdeka.com/" +:+ rest) kwargs = inr p
     /\ p_url p = "https://api.openrobot.xyz/api://lyrics.ayomerdeka.com/" +:+ rest).
Proof.
  intros Hd Hflag. split.
  - exact (proj2 (prepare_url_gate self ("https://api.openrobot.xyz/" +:+ rest)
                    kwargs Hd) eq_refl Hflag).
  - exact (proj2 (prepare_url_gate self ("https://lyrics.ayomerdeka.com/" +:+ rest)
                    kwargs Hd) eq_refl Hflag).
Qed.

(** Asking to skip the validation ([no_url_regex=True]) is what raises
    the error, for a wrapper path as for any other target. *)
Lemma no_url_regex_raises :
  _request demo_client (always (demo_response 200 ∅)) "GET" 1 "/api/sentiment"
    {[ "no_url_regex" := PyBool true ]}
  = Some (Raised (TypeError "URL is not a valid HTTP/HTTPs URL."), []).
Proof. reflexivity. Qed.

(** What the pattern does accept is a one-letter host: a target that
    is left as [http://a/...] after the slices is the one refused. *)
Lemma one_letter_host_raises :
  _request demo_client (always (demo_response 200 ∅)) "GET" 1 "/apihttp://a/x" ∅
  = Some (Raised (TypeError "URL is not a valid HTTP/HTTPs URL."), []).
Proof. reflexivity. Qed.

(** C1, on the code. An absolute URL on either allowed host is not kept:
    it loses its first five characters and gets the base URL in front,
    and the request goes out to that address. A URL on another host is
    not refused either: no [TypeError], the request is made. *)
Theorem absolute_url_is_rewritten :
  _request demo_client (always (demo_response 200 ∅)) "GET" 1
    "https://api.openrobot.xyz/api/sentiment" ∅
  = Some (Returned (Decoded demo_body),
          [Sent "GET" "https://api.openrobot.xyz/api://api.openrobot.xyz/api/sentiment"
             {[ "headers" := auth_headers demo_client ]}])
  /\ _request demo_client (always (demo_response 200 ∅)) "GET" 1
    "https://lyrics.ayomerdeka.com/x" ∅
  = Some (Returned (Decoded demo_body),
          [Sent "GET" "https://api.openrobot.xyz/api://lyrics.ayomerdeka.com/x"
             {[ "headers" := auth_headers demo_client ]}])
  /\ _request demo_client (always (demo_response 200 ∅)) "GET" 1
    "http://example.com/x" ∅
  = Some (Returned (Decoded demo_body),
          [Sent "GET" "https://api.openrobot.xyz/api//example.com/x"
             {[ "headers" := auth_headers demo_client ]}]).
Proof. split; [|split]; reflexivity. Qed.

(** On [/api/sentiment] the code keeps the leading slash and drops
    [/api]; the worded procedure would drop the slash, keep [api/] and
    arrive at [.../apiapi/sentiment]. And relative paths of another
    shape are not sent to [https://api.openrobot.xyz/api/sentiment]. *)
Lemma relative_path_not_canonical :
  strip_url "/api/sentiment" = "/sentiment"
  /\ base_url +:+ strip_url "/api/sentiment" = "https://api.openrobot.xyz/api/sentiment"
  /\ spec_normalize "/api/sentiment" = "https://api.openrobot.xyz/apiapi/sentiment"
  /\ _request demo_client (always (demo_response 200 ∅)) "GET" 1 "api/sentiment" ∅
  = Some (Returned (Decoded demo_body),
          [Sent "GET" "https://api.openrobot.xyz/apientiment"
             {[ "headers" := auth_headers demo_client ]}])
  /\ _request demo_client (always (demo_response 200 ∅)) "GET" 1 "/sentiment" ∅
  = Some (Returned (Decoded demo_body),
          [Sent "GET" "https://api.openrobot.xyz/apitiment"
             {[ "headers" := auth_headers demo_client ]}])
  /\ _request demo_client (always (demo_response 200 ∅)) "GET" 1 "sentiment" ∅
  = Some (Returned (Decoded demo_body),
          [Sent "GET" "https://api.openrobot.xyz/apiment"
             {[ "headers" := auth_headers demo_client ]}]).
Proof. repeat split. Qed.

(** C3, as the code has it. A target [/api/<endpoint>] keeps its leading
    slash, loses its first four characters ([/api]) because it does not
    begin with [api/], and gets the base URL in front: the URL sent is
    [https://api.openrobot.xyz/api/<endpoint>]. *)
Theorem api_path_is_canonical self endpoint kwargs :
  caller_dict kwargs = false ->
  truthy (default (PyBool false) (kwargs !! "no_url_regex")) = false ->
  (exists p, prepare self ("/api/" +:+ endpoint) kwargs = inr p
     /\ p_url p = "https://api.openrobot.xyz/api/" +:+ endpoint)
  /\ forall srv method fuel o tr m u kw,
       _request self srv method fuel ("/api/" +:+ endpoint) kwargs = Some (o, tr) ->
       Sent m u kw ∈ tr ->
       u = "https://api.openrobot.xyz/api/" +:+ endpoint.
Proof.
  intros Hd Hflag.
  destruct (proj2 (prepare_url_gate self ("/api/" +:+ endpoint) kwargs Hd)
              eq_refl Hflag) as (p & Hp & Hu).
  split; [by exists p|].
  intros srv method fuel o tr m u kw Hreq Hin.
  destruct (request_sent_events _ _ _ _ _ _ _ _ _ _ _ Hreq Hin)
    as (p' & Hp' & _ & -> & _).
  rewrite Hp in Hp'. by injection Hp' as <-.
Qed.

Lemma api_path_is_canonical_witness :
  exists p, prepare demo_client "/api/text-generation" ∅ = inr p
    /\ p_url p = "https://api.openrobot.xyz/api/text-generation".
Proof.
  exact (proj1 (api_path_is_canonical demo_client "text-generation" ∅ eq_refl eq_refl)).
Defined.

(* ===================================================================== *)
(** ** More on what reaches the transport                                 *)
(* ===================================================================== *)

Lemma startswith_app pre s : startswith (pre +:+ s) pre = true.
Proof.
  induction pre as [|a pre IH]; simpl; [by destruct s|].
  by rewrite Ascii.eqb_refl, IH.
Qed.

(** The keyword arguments a successful [prepare] leaves for the
    transport: the caller's, with the credential header put in and the
    three options of [_request] taken out. *)
Lemma prepare_kwargs self url kwargs p :
  prepare self url kwargs = inr p ->
  p_kwargs p
  = delete "no_url_regex" (delete "raw" (delete "return_on"
      (<["headers" := auth_headers self]> kwargs))).
Proof.
  unfold prepare. rewrite merge_headers_cases.
  destruct (caller_dict kwargs); [discriminate|].
  unfold dict_pop.
  destruct (url_regex_match _); [discriminate|].
  destruct (negb (truthy _)); [|discriminate].
  by intros [= <-].
Qed.

(** X1. Every request of a dispatch is made with the caller's method
    and goes to the base URL followed by the sliced target: whatever
    the target, the transport only sees URLs that begin with
    [https://api.openrobot.xyz/api]. *)
Theorem sent_url_has_base self srv method fuel url kwargs o tr m u kw :
  _request self srv method fuel url kwargs = Some (o, tr) ->
  Sent m u kw ∈ tr ->
  m = method
  /\ u = base_url +:+ strip_url url
  /\ startswith u "https://api.openrobot.xyz/api" = true.
Proof.
  intros Hreq Hin.
  destruct (request_sent_events _ _ _ _ _ _ _ _ _ _ _ Hreq Hin)
    as (p & Hp & -> & -> & _).
  apply prepare_inr in Hp as (_ & _ & _ & -> & _).
  split; [done|]. split; [done|]. apply (startswith_app base_url).
Qed.

Lemma sent_url_has_base_witness :
  "GET" = "GET"
  /\ "https://api.openrobot.xyz/api//example.com/x" = base_url +:+ strip_url "http://example.com/x"
  /\ startswith "https://api.openrobot.xyz/api//example.com/x"
       "https://api.openrobot.xyz/api" = true.
Proof.
  refine (sent_url_has_base demo_client (always (demo_response 200 ∅)) "GET" 1
    "http://example.com/x" ∅ (Returned (Decoded demo_body))
    [Sent "GET" "https://api.openrobot.xyz/api//example.com/x"
       {[ "headers" := auth_headers demo_client ]}]
    "GET" "https://api.openrobot.xyz/api//example.com/x"
    {[ "headers" := auth_headers demo_client ]} eq_refl _).
  apply list_elem_of_singleton. reflexivity.
Defined.

(** X2. The keyword arguments of every request sent: ['headers'] is the
    credential header alone whatever the caller passed, [return_on],
    [raw] and [no_url_regex] are not handed on, and every other keyword
    argument of the caller arrives unchanged. *)
Theorem sent_kwargs_are_callers self srv method fuel url kwargs o tr m u kw :
  _request self srv method fuel url kwargs = Some (o, tr) ->
  Sent m u kw ∈ tr ->
  kw !! "headers" = Some (PyDict {[ "Authorization" := PyStr (token self) ]})
  /\ kw !! "return_on" = None
  /\ kw !! "raw" = None
  /\ kw !! "no_url_regex" = None
  /\ forall k, k ∉ control_keys -> kw !! k = kwargs !! k.
Proof.
  intros Hreq Hin.
  destruct (request_sent_events _ _ _ _ _ _ _ _ _ _ _ Hreq Hin)
    as (p & Hp & _ & _ & ->).
  rewrite (prepare_kwargs _ _ _ _ Hp).
  split; [by rewrite !lookup_delete_ne, lookup_insert_eq by done|].
  split; [by rewrite !lookup_delete_ne, lookup_delete_eq by done|].
  split; [by rewrite lookup_delete_ne, lookup_delete_eq by done|].
  split; [by rewrite lookup_delete_eq|].
  intros k Hk. unfold control_keys in Hk.
  rewrite !lookup_delete_ne, lookup_insert_ne; [done|..];
    intros <-; apply Hk; set_solver.
Qed.

Lemma sent_kwargs_are_callers_witness :
  let kw : gmap string PyVal :=
    {[ "headers" := auth_headers demo_client; "params" := PyDict {[ "url" := PyStr "u" ]} ]} in
  kw !! "headers" = Some (PyDict {[ "Authorization" := PyStr "secret" ]})
  /\ kw !! "return_on" = None
  /\ kw !! "raw" = None
  /\ kw !! "no_url_regex" = None
  /\ forall k, k ∉ control_keys ->
       kw !! k = ({[ "params" := PyDict {[ "url" := PyStr "u" ]};
                     "raw" := PyBool true; "headers" := PyStr "mine" ]}
                  : gmap string PyVal) !! k.
Proof.
  refine (sent_kwargs_are_callers demo_client (always (demo_response 200 ∅)) "GET" 1
    "/api/nsfw-check"
    {[ "params" := PyDict {[ "url" := PyStr "u" ]};
       "raw" := PyBool true; "headers" := PyStr "mine" ]}
    (Returned (Raw (demo_response 200 ∅)))
    [Sent "GET" "https://api.openrobot.xyz/api/nsfw-check"
       {[ "headers" := auth_headers demo_client;
          "params" := PyDict {[ "url" := PyStr "u" ]} ]}]
    "GET" "https://api.openrobot.xyz/api/nsfw-check"
    {[ "headers" := auth_headers demo_client;
       "params" := PyDict {[ "url" := PyStr "u" ]} ]} eq_refl _).
  apply list_elem_of_singleton. reflexivity.
Defined.

(** X3. Asking to skip the URL check is what makes the check fail: with
    a truthy [no_url_regex] every dispatch that gets past the headers
    raises [TypeError] before anything is sent, whatever the target. *)
Theorem no_url_regex_always_raises self srv method fuel url kwargs flag :
  caller_dict kwargs = false ->
  kwargs !! "no_url_regex" = Some flag ->
  truthy flag = true ->
  _request self srv method fuel url kwargs
  = Some (Raised (TypeError "URL is not a valid HTTP/HTTPs URL."), []).
Proof.
  intros Hd Hk Hflag. unfold _request.
  rewrite (proj1 (prepare_url_gate self url kwargs Hd)); [done|].
  right. by rewrite Hk.
Qed.

Lemma no_url_regex_always_raises_witness :
  _request demo_client (always (demo_response 200 ∅)) "GET" 1 "/api/lyrics/x"
    {[ "no_url_regex" := PyBool true ]}
  = Some (Raised (TypeError "URL is not a valid HTTP/HTTPs URL."), []).
Proof.
  exact (no_url_regex_always_raises demo_client (always (demo_response 200 ∅)) "GET" 1
    "/api/lyrics/x" {[ "no_url_regex" := PyBool true ]} (PyBool true)
    eq_refl eq_refl eq_refl).
Defined.

(* ===================================================================== *)
(** ** More status rules                                                  *)
(* ===================================================================== *)

(** X4. A response whose status has no rule of its own (not 403, 400,
    500 or 429, not in [200, 300), not let through by the caller) makes
    the dispatch raise [OpenRobotAPIError] with the decoded body as its
    message and as [raw], and the response as [response]. *)
Theorem unmapped_status_raises
    self srv method fuel url kwargs p resp body delay k r js :
  prepare self url kwargs = inr p ->
  tries_cover (tries self) (S k) ->
  (forall i, (i < k)%nat -> backs_off self srv method p resp body delay i) ->
  srv k method (p_url p) (p_kwargs p) = Some r ->
  json r = Some js ->
  py_contains (p_return_on p) (status_code r) = inr false ->
  status_code r <> 403 -> status_code r <> 400 ->
  status_code r <> 500 -> status_code r <> 429 ->
  ~ (200 <= status_code r < 300) ->
  _request self srv method (S k + fuel) url kwargs
  = Some (Raised (OpenRobotAPIError js js r),
          flat_map (round method p delay) (seq 0 k)
          ++ [Sent method (p_url p) (p_kwargs p)]).
Proof.
  intros Hp Hcover Hback Hr Hjs Hin H403 H400 H500 H429 Hrange.
  apply (request_finishes _ _ _ _ _ _ p resp body delay k r); try done.
  unfold handle_response. rewrite Hjs, Hin.
  replace (status_code r =? 403) with false by lia.
  replace (status_code r =? 400) with false by lia.
  replace (status_code r =? 500) with false by lia.
  replace (status_code r =? 429) with false by lia.
  destruct (200 <=? status_code r) eqn:Hlo;
    destruct (status_code r <? 300) eqn:Hhi; simpl; try done.
  exfalso. apply Hrange. lia.
Qed.

Lemma unmapped_status_raises_witness :
  _request demo_client (busy_then (demo_response 404 ∅)) "GET" 2 "/api/sentiment" ∅
  = Some (Raised (OpenRobotAPIError demo_body demo_body (demo_response 404 ∅)),
          [Sent "GET" (p_url demo_prepared) (p_kwargs demo_prepared); Slept 3;
           Sent "GET" (p_url demo_prepared) (p_kwargs demo_prepared)]).
Proof.
  refine (unmapped_status_raises demo_client (busy_then (demo_response 404 ∅))
    "GET" 0 "/api/sentiment" ∅ demo_prepared
    (fun _ => demo_busy) (fun _ => demo_body) (fun _ => 3) 1
    (demo_response 404 ∅) demo_body eq_refl _ _ eq_refl eq_refl eq_refl
    _ _ _ _ _); simpl; try lia.
  intros i Hi. destruct i; [split; reflexivity|lia].
Defined.

(** X5. The body is decoded before the status is looked at: a response
    whose body is not JSON ends the dispatch in the decoding error
    whatever its status, also a 2xx, a status the caller lets through,
    or a call that asked for the raw response. *)
Theorem undecodable_body_raises
    self srv method fuel url kwargs p resp body delay k r :
  prepare self url kwargs = inr p ->
  tries_cover (tries self) (S k) ->
  (forall i, (i < k)%nat -> backs_off self srv method p resp body delay i) ->
  srv k method (p_url p) (p_kwargs p) = Some r ->
  json r = None ->
  _request self srv method (S k + fuel) url kwargs
  = Some (Raised JSONDecodeError,
          flat_map (round method p delay) (seq 0 k)
          ++ [Sent method (p_url p) (p_kwargs p)]).
Proof.
  intros Hp Hcover Hback Hr Hjs.
  apply (request_finishes _ _ _ _ _ _ p resp body delay k r); try done.
  unfold handle_response. by rewrite Hjs.
Qed.

Lemma undecodable_body_raises_witness :
  _request demo_client (always (mkResponse 204 ∅ None)) "GET" 1 "/api/sentiment"
    {[ "return_on" := PyList [PyInt 204]; "raw" := PyBool true ]}
  = Some (Raised JSONDecodeError,
          [Sent "GET" "https://api.openrobot.xyz/api/sentiment"
             {[ "headers" := auth_headers demo_client ]}]).
Proof.
  refine (undecodable_body_raises demo_client (always (mkResponse 204 ∅ None))
    "GET" 0 "/api/sentiment"
    {[ "return_on" := PyList [PyInt 204]; "raw" := PyBool true ]}
    (mkPrepared "https://api.openrobot.xyz/api/sentiment"
       {[ "headers" := auth_headers demo_client ]} (PyList [PyInt 204]) (PyBool true))
    (fun _ => demo_busy) (fun _ => demo_body) (fun _ => 3) 0
    (mkResponse 204 ∅ None) eq_refl _ _ eq_refl eq_refl).
  - simpl. lia.
  - intros i Hi. lia.
Defined.

Lemma py_sleep_cases now n :
  (n < -9223372036 \/ 9223372036 < n ->
     exists msg, py_sleep now n = Some (OverflowError msg))
  /\ (-9223372036 <= n < 0 -> exists msg, py_sleep now n = Some (ValueError msg))
  /\ (0 <= n <= 9223372036 -> int64_max < Z.of_N now + n * sec_to_ns ->
      exists msg, py_sleep now n = Some (OSError msg))
  /\ (0 <= n -> Z.of_N now + n * sec_to_ns <= int64_max -> py_sleep now n = None).
Proof.
  unfold py_sleep. change (int64_max / sec_to_ns) with 9223372036.
  unfold int64_max, sec_to_ns.
  repeat split; intros;
    repeat (match goal with |- context [if ?b then _ else _] =>
              let Hb := fresh in destruct b eqn:Hb end);
    eauto; lia.
Qed.

(** X6. A [Retry-After] that is there but that [int] or [time.sleep]
    refuses is not caught by the [except KeyError]: the dispatch ends in
    the exception they raise, without the sleep and without another
    request. That is [ValueError] for a value that is not an integer
    literal (an HTTP date, say) or is negative, [OverflowError] for a
    delay beyond 9223372036 seconds either way, and [OSError] for a
    delay that takes the monotonic clock out of its 64-bit range. *)
Theorem unusable_retry_after_raises
    self srv method fuel url kwargs p resp body delay k r js v :
  handle_ratelimit self = true ->
  prepare self url kwargs = inr p ->
  tries_cover (tries self) (S k) ->
  (forall i, (i < k)%nat -> backs_off self srv method p resp body delay i) ->
  srv k method (p_url p) (p_kwargs p) = Some r ->
  json r = Some js ->
  status_code r = 429 ->
  py_contains (p_return_on p) 429 = inr false ->
  header_get r "Retry-After" = Some v ->
  (py_int v = None \/ (exists n, py_int v = Some n /\ -9223372036 <= n < 0) ->
     exists msg,
       _request self srv method (S k + fuel) url kwargs
       = Some (Raised (ValueError msg),
               flat_map (round method p delay) (seq 0 k)
               ++ [Sent method (p_url p) (p_kwargs p)]))
  /\ ((exists n, py_int v = Some n /\ (n < -9223372036 \/ 9223372036 < n)) ->
     exists msg,
       _request self srv method (S k + fuel) url kwargs
       = Some (Raised (OverflowError msg),
               flat_map (round method p delay) (seq 0 k)
               ++ [Sent method (p_url p) (p_kwargs p)]))
  /\ ((exists n, py_int v = Some n /\ 0 <= n <= 9223372036
         /\ int64_max < Z.of_N (monotonic srv k) + n * sec_to_ns) ->
     exists msg,
       _request self srv method (S k + fuel) url kwargs
       = Some (Raised (OSError msg),
               flat_map (round method p delay) (seq 0 k)
               ++ [Sent method (p_url p) (p_kwargs p)])).
Proof.
  intros Hh Hp Hcover Hback Hr Hjs Hst Hin Hhdr.
  assert (Hraise : forall e, retry_delay (monotonic srv k) r = inl e ->
            _request self srv method (S k + fuel) url kwargs
            = Some (Raised e, flat_map (round method p delay) (seq 0 k)
                              ++ [Sent method (p_url p) (p_kwargs p)])).
  { intros e Hd.
    apply (request_finishes _ _ _ _ _ _ p resp body delay k r); try done.
    unfold handle_response. by rewrite Hjs, Hst, Hin, Hh, Hd. }
  unfold retry_delay in Hraise. rewrite Hhdr in Hraise.
  split; [|split].
  - intros [Hnone|(n & Hn & Hneg)].
    + rewrite Hnone in Hraise. eauto.
    + rewrite Hn in Hraise.
      destruct (proj1 (proj2 (py_sleep_cases (monotonic srv k) n)) Hneg) as [msg Hs].
      rewrite Hs in Hraise. eauto.
  - intros (n & Hn & Hbig). rewrite Hn in Hraise.
    destruct (proj1 (py_sleep_cases (monotonic srv k) n) Hbig) as [msg Hs].
    rewrite Hs in Hraise. eauto.
  - intros (n & Hn & Hrange & Hclock). rewrite Hn in Hraise.
    destruct (proj1 (proj2 (proj2 (py_sleep_cases (monotonic srv k) n))) Hrange Hclock)
      as [msg Hs].
    rewrite Hs in Hraise. eauto.
Qed.

Lemma unusable_retry_after_raises_witness :
  exists msg,
    _request demo_client
      (always (demo_response 429 {[ "retry-after" := "Wed, 21 Oct 2015 07:28:00 GMT" ]}))
      "GET" 1 "/api/sentiment" ∅
    = Some (Raised (ValueError msg),
            [Sent "GET" (p_url demo_prepared) (p_kwargs demo_prepared)]).
Proof.
  refine (proj1 (unusable_retry_after_raises demo_client
    (always (demo_response 429 {[ "retry-after" := "Wed, 21 Oct 2015 07:28:00 GMT" ]}))
    "GET" 0 "/api/sentiment" ∅ demo_prepared
    (fun _ => demo_busy) (fun _ => demo_body) (fun _ => 3) 0
    (demo_response 429 {[ "retry-after" := "Wed, 21 Oct 2015 07:28:00 GMT" ]})
    demo_body "Wed, 21 Oct 2015 07:28:00 GMT"
    eq_refl eq_refl _ _ eq_refl eq_refl eq_refl eq_refl eq_refl) (or_introl eq_refl)).
  - simpl. lia.
  - intros i Hi. lia.
Defined.

(* ===================================================================== *)
(** ** Counting requests and sleeps                                       *)
(* ===================================================================== *)

Lemma requests_made_app tr1 tr2 :
  requests_made (tr1 ++ tr2) = (requests_made tr1 + requests_made tr2)%nat.
Proof.
  induction tr1 as [|e tr1 IH]; [done|].
  destruct e; simpl; by rewrite IH.
Qed.

Lemma sleeps_taken_app tr1 tr2 :
  sleeps_taken (tr1 ++ tr2) = (sleeps_taken tr1 + sleeps_taken tr2)%nat.
Proof.
  induction tr1 as [|e tr1 IH]; [done|].
  destruct e; simpl; by rewrite IH.
Qed.

(** What a run of the loop adds to the trace: [a] requests and [b]
    sleeps with [b <= a], and no more requests than the tries it
    started with. *)
Lemma retry_loop_counts self srv method fuel : forall p tries last n tr o tr',
  retry_loop self srv method fuel p tries last n tr = Some (o, tr') ->
  exists a b,
    requests_made tr' = (requests_made tr + a)%nat
    /\ sleeps_taken tr' = (sleeps_taken tr + b)%nat
    /\ (b <= a)%nat
    /\ forall t, tries = Some t -> (a <= Z.to_nat t)%nat.
Proof.
  induction fuel as [|fuel IH]; intros p tries last n tr o tr' H.
  - destruct (loop_cond tries) eqn:Hc;
      [simpl in H; rewrite Hc in H; discriminate|].
    rewrite retry_loop_exit in H by done.
    exists 0%nat, 0%nat. rewrite !Nat.add_0_r.
    destruct last as [[??]|]; injection H as _ <-; repeat split; lia.
  - destruct (loop_cond tries) eqn:Hc.
    + simpl in H. rewrite Hc in H.
      assert (Hpos : forall t, tries = Some t -> 0 < t).
      { intros t ->. simpl in Hc. lia. }
      destruct (srv n method (p_url p) (p_kwargs p)).
      * destruct (handle_response _ _ _ _ _).
        -- injection H as _ <-. exists 1%nat, 0%nat.
           rewrite requests_made_app, sleeps_taken_app. simpl.
           repeat split; try lia. intros t Ht. specialize (Hpos t Ht). lia.
        -- apply IH in H as (a & b & Ha & Hb & Hab & Hbound).
           exists (S a), (S b).
           rewrite !requests_made_app in Ha. rewrite !sleeps_taken_app in Hb.
           simpl in Ha, Hb.
           repeat split; try lia.
           intros t Ht. specialize (Hpos t Ht). subst tries.
           specialize (Hbound (t - 1)). simpl in Hbound.
           replace (t =? 0) with false in Hbound by lia.
           specialize (Hbound eq_refl). lia.
      * injection H as _ <-. exists 1%nat, 0%nat.
        rewrite requests_made_app, sleeps_taken_app. simpl.
        repeat split; try lia. intros t Ht. specialize (Hpos t Ht). lia.
    + rewrite retry_loop_exit in H by done.
      exists 0%nat, 0%nat. rewrite !Nat.add_0_r.
      destruct last as [[??]|]; injection H as _ <-; repeat split; lia.
Qed.

(** X7. A client with [tries = N] never makes more than [N] requests
    in one dispatch, whatever the server answers; with [N <= 0] it
    makes none. *)
Theorem requests_bounded_by_tries self srv method fuel url kwargs N o tr :
  tries self = Some N ->
  _request self srv method fuel url kwargs = Some (o, tr) ->
  (requests_made tr <= Z.to_nat N)%nat.
Proof.
  intros Ht. unfold _request.
  destruct (prepare self url kwargs) as [e|p].
  - intros [= _ <-]. simpl. lia.
  - rewrite Ht. intros H.
    apply retry_loop_counts in H as (a & b & Ha & _ & _ & Hbound).
    specialize (Hbound N eq_refl). simpl in Ha. lia.
Qed.

Lemma requests_bounded_by_tries_witness :
  (requests_made
     [Sent "GET" (p_url demo_prepared) (p_kwargs demo_prepared); Slept 3;
      Sent "GET" (p_url demo_prepared) (p_kwargs demo_prepared); Slept 3]
   <= Z.to_nat 2)%nat.
Proof.
  exact (requests_bounded_by_tries demo_patient_client (always demo_busy) "GET" 9
    "/api/sentiment" ∅ 2 (Raised (TooManyRequests demo_busy demo_body))
    [Sent "GET" (p_url demo_prepared) (p_kwargs demo_prepared); Slept 3;
     Sent "GET" (p_url demo_prepared) (p_kwargs demo_prepared); Slept 3]
    eq_refl eq_refl).
Defined.

Lemma retry_loop_in_rounds self srv method fuel : forall p tries last n tr o tr',
  retry_loop self srv method fuel p tries last n tr = Some (o, tr') ->
  exists ext, tr' = tr ++ ext /\ in_rounds ext = true.
Proof.
  induction fuel as [|fuel IH]; intros p tries last n tr o tr' H.
  - destruct (loop_cond tries) eqn:Hc;
      [simpl in H; rewrite Hc in H; discriminate|].
    rewrite retry_loop_exit in H by done.
    exists []. rewrite app_nil_r.
    destruct last as [[??]|]; by injection H as _ <-.
  - destruct (loop_cond tries) eqn:Hc.
    + simpl in H. rewrite Hc in H.
      destruct (srv n method (p_url p) (p_kwargs p)).
      * destruct (handle_response _ _ _ _ _).
        -- injection H as _ <-. by eexists [_].
        -- apply IH in H as (ext & -> & Hext).
           exists (Sent method (p_url p) (p_kwargs p) :: Slept seconds :: ext).
           split; [by rewrite <- !app_assoc|done].
      * injection H as _ <-. by eexists [_].
    + rewrite retry_loop_exit in H by done.
      exists []. rewrite app_nil_r.
      destruct last as [[??]|]; by injection H as _ <-.
Qed.

Lemma in_rounds_counts tr :
  in_rounds tr = true -> (sleeps_taken tr <= requests_made tr)%nat.
Proof.
  revert tr. fix IH 1. intros [|e tr]; [simpl; lia|].
  destruct e as [m u kw|secs|msg]; [|done|done].
  destruct tr as [|e' tr]; [simpl; lia|].
  destruct e' as [m' u' kw'|secs|msg]; [done| |done].
  simpl. intros H. specialize (IH tr H). lia.
Qed.

(** X8. A dispatch sleeps only straight after a request it has made:
    its trace is a row of rounds, a request and then a sleep, with
    possibly one last request and no sleep after it, so there are never
    more sleeps than requests; and a call that raises before the loop
    (in the header or URL steps) has an empty trace, neither a request
    nor a sleep. *)
Theorem sleeps_follow_requests self srv method fuel url kwargs o tr :
  _request self srv method fuel url kwargs = Some (o, tr) ->
  in_rounds tr = true
  /\ (sleeps_taken tr <= requests_made tr)%nat
  /\ (forall e, prepare self url kwargs = inl e -> o = Raised e /\ tr = []).
Proof.
  unfold _request. destruct (prepare self url kwargs) as [e|p].
  - intros [= <- <-]. split; [done|]. split; [simpl; lia|].
    by intros e0 [= <-].
  - intros H. apply retry_loop_in_rounds in H as (ext & -> & Hext).
    split; [done|]. split; [by apply in_rounds_counts|done].
Qed.

Lemma sleeps_follow_requests_witness :
  in_rounds
    [Sent "GET" (p_url demo_prepared) (p_kwargs demo_prepared); Slept 3;
     Sent "GET" (p_url demo_prepared) (p_kwargs demo_prepared)] = true
  /\ (sleeps_taken
       [Sent "GET" (p_url demo_prepared) (p_kwargs demo_prepared); Slept 3;
        Sent "GET" (p_url demo_prepared) (p_kwargs demo_prepared)]
     <= requests_made
       [Sent "GET" (p_url demo_prepared) (p_kwargs demo_prepared); Slept 3;
        Sent "GET" (p_url demo_prepared) (p_kwargs demo_prepared)])%nat
  /\ (forall e, prepare demo_client "/api/sentiment" ∅ = inl e ->
       Returned (Decoded demo_body) = Raised e
       /\ [Sent "GET" (p_url demo_prepared) (p_kwargs demo_prepared); Slept 3;
           Sent "GET" (p_url demo_prepared) (p_kwargs demo_prepared)] = []).
Proof.
  exact (sleeps_follow_requests demo_client (busy_then (demo_response 200 ∅)) "GET" 2
    "/api/sentiment" ∅ (Returned (Decoded demo_body))
    [Sent "GET" (p_url demo_prepared) (p_kwargs demo_prepared); Slept 3;
     Sent "GET" (p_url demo_prepared) (p_kwargs demo_prepared)]
    eq_refl).
Defined.

(** X9. With rate-limit handling off a dispatch comes to an end after
    at most one request and never sleeps, also without a bound on the
    tries: one unit of fuel is enough. *)
Theorem unhandled_one_request self srv method fuel url kwargs :
  handle_ratelimit self = false ->
  (exists o tr, _request self srv method (S fuel) url kwargs = Some (o, tr)
     /\ (requests_made tr <= 1)%nat /\ sleeps_taken tr = 0%nat).
Proof.
  intros Hh. unfold _request.
  assert (Hdone : forall (o : Outcome) (tr : list Event),
            (requests_made tr <= 1)%nat -> sleeps_taken tr = 0%nat ->
            exists o' tr', Some (o, tr) = Some (o', tr')
              /\ (requests_made tr' <= 1)%nat /\ sleeps_taken tr' = 0%nat)
    by (intros o tr ??; by exists o, tr).
  destruct (prepare self url kwargs) as [e|p]; [apply Hdone; simpl; lia|].
  destruct (loop_cond (tries self)) eqn:Hc.
  - simpl. rewrite Hc.
    destruct (srv 0%nat method (p_url p) (p_kwargs p)) as [r|];
      [|apply Hdone; simpl; lia].
    destruct (handle_response self (monotonic srv 0%nat) (p_return_on p) (p_raw p) r)
      as [o|secs js] eqn:Hv;
      [apply Hdone; simpl; lia|].
    by apply unhandled_never_backs_off in Hv.
  - rewrite retry_loop_exit by done. apply Hdone; simpl; lia.
Qed.

Lemma unhandled_one_request_witness :
  exists o tr,
    _request (mkSyncClient "secret" false None) (always demo_busy) "GET" 1
      "/api/sentiment" ∅ = Some (o, tr)
    /\ (requests_made tr <= 1)%nat /\ sleeps_taken tr = 0%nat.
Proof.
  exact (unhandled_one_request (mkSyncClient "secret" false None) (always demo_busy)
    "GET" 0 "/api/sentiment" ∅ eq_refl).
Defined.

(* ===================================================================== *)
(** ** Where a returned value comes from                                  *)
(* ===================================================================== *)

Lemma handle_response_returned self now return_on raw r v :
  handle_response self now return_on raw r = Finish (Returned v) ->
  exists js, json r = Some js
    /\ (py_contains return_on (status_code r) = inr true
        \/ 200 <= status_code r < 300)
    /\ v = (if truthy raw then Raw r else Decoded js).
Proof.
  unfold handle_response, give_back.
  destruct (json r) as [js|]; [|done].
  destruct (py_contains return_on (status_code r)) as [e|[]] eqn:Hin; [done| |].
  - intros [= <-]. exists js. auto.
  - destruct (status_code r =? 403); [done|].
    destruct (status_code r =? 400); [done|].
    destruct (status_code r =? 500); [done|].
    destruct (status_code r =? 429).
    { destruct (negb (handle_ratelimit self)); [done|].
      by destruct (retry_delay now r). }
    destruct (200 <=? status_code r) eqn:Hlo; [|done].
    destruct (status_code r <? 300) eqn:Hhi; [|done].
    intros [= <-]. exists js. split; [done|]. split; [right; lia|done].
Qed.

Lemma retry_loop_returned self srv method fuel : forall p tries last n tr v tr',
  retry_loop self srv method fuel p tries last n tr = Some (Returned v, tr') ->
  exists i r js,
    srv i method (p_url p) (p_kwargs p) = Some r
    /\ json r = Some js
    /\ (py_contains (p_return_on p) (status_code r) = inr true
        \/ 200 <= status_code r < 300)
    /\ v = (if truthy (p_raw p) then Raw r else Decoded js).
Proof.
  induction fuel as [|fuel IH]; intros p tries last n tr v tr' H.
  - destruct (loop_cond tries) eqn:Hc;
      [simpl in H; rewrite Hc in H; discriminate|].
    rewrite retry_loop_exit in H by done. by destruct last as [[??]|].
  - destruct (loop_cond tries) eqn:Hc.
    + simpl in H. rewrite Hc in H.
      destruct (srv n method (p_url p) (p_kwargs p)) as [r|] eqn:Hr; [|done].
      destruct (handle_response _ _ _ _ _) as [o|secs js] eqn:Hv.
      * injection H as -> _.
        apply handle_response_returned in Hv as (js & ? & ? & ?).
        by exists n, r, js.
      * by apply IH in H.
    + rewrite retry_loop_exit in H by done. by destruct last as [[??]|].
Qed.

(** X10. A dispatch only ever returns what a response gave it: the
    value comes from a response whose body decoded and whose status is
    in the caller's [return_on] or in [200, 300), and it is the response
    object when the caller's [raw] is truthy and the decoded body
    otherwise. No body of a 403, 400, 500 or 429 is returned unless the
    caller let that status through. *)
Theorem returned_value_origin self srv method fuel url kwargs v tr :
  _request self srv method fuel url kwargs = Some (Returned v, tr) ->
  exists p i r js,
    prepare self url kwargs = inr p
    /\ srv i method (p_url p) (p_kwargs p) = Some r
    /\ json r = Some js
    /\ (py_contains (default (PyList []) (kwargs !! "return_on")) (status_code r)
        = inr true
        \/ 200 <= status_code r < 300)
    /\ v = (if truthy (default (PyBool false) (kwargs !! "raw"))
            then Raw r else Decoded js).
Proof.
  unfold _request. destruct (prepare self url kwargs) as [e|p] eqn:Hp; [done|].
  intros H. apply retry_loop_returned in H as (i & r & js & Hr & Hjs & Hst & Hv).
  apply prepare_inr in Hp as (_ & _ & _ & _ & _ & Hro & Hraw).
  rewrite Hro in Hst. rewrite Hraw in Hv.
  by exists p, i, r, js.
Qed.

Lemma returned_value_origin_witness :
  exists p i r js,
    prepare demo_client "/api/sentiment" ∅ = inr p
    /\ always (demo_response 201 ∅) i "GET" (p_url p) (p_kwargs p) = Some r
    /\ json r = Some js
    /\ (py_contains (default (PyList []) ((∅ : gmap string PyVal) !! "return_on"))
          (status_code r) = inr true
        \/ 200 <= status_code r < 300)
    /\ Decoded demo_body
       = (if truthy (default (PyBool false) ((∅ : gmap string PyVal) !! "raw"))
          then Raw r else Decoded js).
Proof.
  exact (returned_value_origin demo_client (always (demo_response 201 ∅)) "GET" 1
    "/api/sentiment" ∅ (Decoded demo_body)
    [Sent "GET" (p_url demo_prepared) (p_kwargs demo_prepared)] eq_refl).
Defined.


(* ===================================================================== *)
(** ** More on construction                                               *)
(* ===================================================================== *)

(** X12. Every client that [__init__] builds has a token that is not
    empty: the argument when that is truthy, otherwise what
    [get_token_from_file] found; [handle_ratelimit] and [tries] are
    stored as given. *)
Theorem init_token_not_empty gtf tok iw hr tr c w :
  __init__ gtf tok iw hr tr = (inr c, w) ->
  token c <> ""
  /\ Some (token c) = (if str_truthy tok then tok else gtf tt)
  /\ handle_ratelimit c = hr
  /\ tries c = tr.
Proof.
  unfold __init__, str_or.
  destruct (if str_truthy tok then tok else gtf tt) as [t|] eqn:Hsrc; simpl; [|done].
  destruct (String.eqb t "") eqn:Ht; simpl; [done|].
  apply String.eqb_neq in Ht.
  destruct (String.eqb t testing_token && negb iw)%bool; by intros [= <- _].
Qed.

Lemma init_token_not_empty_witness :
  "from-file" <> ""
  /\ Some "from-file" = (if str_truthy (Some "") then Some "" else Some "from-file")
  /\ true = true
  /\ Some 5 = Some 5.
Proof.
  exact (init_token_not_empty (fun _ => Some "from-file") (Some "") false true (Some 5)
    (mkSyncClient "from-file" true (Some 5)) [] eq_refl).
Defined.

(** X13. The usage warning is emitted exactly when the token the client
    ends up with is ['I-Am-Testing'] and [ignore_warning] is false, also
    when that token came from the file; nothing else is ever warned
    about. *)
Theorem init_warns_iff_testing gtf tok iw hr tr c w :
  __init__ gtf tok iw hr tr = (inr c, w) ->
  w = (if (String.eqb (token c) testing_token && negb iw)%bool
       then [Warned testing_warning] else []).
Proof.
  unfold __init__, str_or.
  destruct (if str_truthy tok then tok else gtf tt) as [t|]; simpl; [|done].
  destruct (String.eqb t ""); simpl; [done|].
  destruct (String.eqb t testing_token && negb iw)%bool eqn:Hw;
    intros [= <- <-]; simpl; by rewrite Hw.
Qed.

Lemma init_warns_iff_testing_witness :
  [Warned testing_warning]
  = (if (String.eqb "I-Am-Testing" testing_token && negb false)%bool
     then [Warned testing_warning] else []).
Proof.
  exact (init_warns_iff_testing (fun _ => Some "I-Am-Testing") None false true (Some 5)
    (mkSyncClient "I-Am-Testing" true (Some 5)) [Warned testing_warning] eq_refl).
Defined.

(** X14. A truthy token argument decides the client by itself: what
    [get_token_from_file] would find makes no difference. *)
Theorem init_argument_goes_first gtf gtf' tok iw hr tr :
  str_truthy tok = true ->
  __init__ gtf tok iw hr tr = __init__ gtf' tok iw hr tr.
Proof. intros Ht. unfold __init__, str_or. by rewrite Ht. Qed.

Lemma init_argument_goes_first_witness :
  __init__ (fun _ => Some "from-file") (Some "mine") false true (Some 5)
  = __init__ (fun _ => None) (Some "mine") false true (Some 5).
Proof.
  exact (init_argument_goes_first (fun _ => Some "from-file") (fun _ => None)
    (Some "mine") false true (Some 5) eq_refl).
Defined.

(* ===================================================================== *)
(** ** The endpoint methods                                               *)
(* ===================================================================== *)

(** A method's trace is the trace of its dispatch. *)
Lemma construct_inv {R : Type} (cls : Value -> Exn + R) res x tr :
  construct cls res = Some (x, tr) ->
  exists o, res = Some (o, tr).
Proof.
  unfold construct. destruct res as [[[v|e] tr0]|]; [| |done].
  - destruct (cls v); intros [= _ <-]; eauto.
  - intros [= _ <-]; eauto.
Qed.

(** Every request of a method is the one its dispatch prepared. *)
Lemma construct_sent {R : Type} (cls : Value -> Exn + R)
    self srv method fuel url kwargs p x tr m u kw :
  prepare self url kwargs = inr p ->
  construct cls (_request self srv method fuel url kwargs) = Some (x, tr) ->
  Sent m u kw ∈ tr ->
  Sent m u kw = Sent method (p_url p) (p_kwargs p).
Proof.
  intros Hp H Hin. apply construct_inv in H as [o H].
  destruct (request_sent_events _ _ _ _ _ _ _ _ _ _ _ H Hin)
    as (p' & Hp' & -> & -> & ->).
  rewrite Hp in Hp'. by injection Hp' as <-.
Qed.

(** A method whose arguments get past [prepare], on a client whose
    tries allow an iteration, begins with its request and makes no
    other. *)
Lemma construct_requests_only {R : Type} (cls : Value -> Exn + R)
    self srv method fuel url kwargs p x tr :
  prepare self url kwargs = inr p ->
  construct cls (_request self srv method fuel url kwargs) = Some (x, tr) ->
  requests_only self (Sent method (p_url p) (p_kwargs p)) tr.
Proof.
  intros Hp H. split.
  - intros m u kw Hin. by apply (construct_sent cls self srv method fuel url kwargs p x tr).
  - intros Hcover. apply construct_inv in H as [o H].
    rewrite (request_enters_loop _ _ _ _ _ _ p Hp) in H.
    assert (Hc : loop_cond (tries self) = true).
    { destruct (tries self) as [t|]; simpl in *; [|done]. apply Z.ltb_lt. lia. }
    destruct fuel as [|fuel]; simpl in H; rewrite Hc in H; [done|].
    destruct (srv 0%nat method (p_url p) (p_kwargs p)) as [r|];
      [|injection H as _ <-; by eexists].
    destruct (handle_response _ _ _ _ _) as [o'|secs js];
      [injection H as _ <-; by eexists|].
    apply retry_loop_trace in H as (ext & -> & _). by eexists.
Qed.

(** A method that passes neither [return_on] nor [raw] returns an
    object only when its result class made one of the decoded body of
    a 2xx response. *)
Lemma construct_built {R : Type} (cls : Value -> Exn + R)
    self srv method fuel url kwargs p obj tr :
  prepare self url kwargs = inr p ->
  p_return_on p = PyList [] ->
  p_raw p = PyBool false ->
  construct cls (_request self srv method fuel url kwargs) = Some (inr obj, tr) ->
  built_from_success srv method (p_url p) (p_kwargs p) cls obj.
Proof.
  intros Hp Hro Hraw. unfold construct, _request. rewrite Hp.
  destruct (retry_loop _ _ _ _ _ _ _ _ _) as [[[v|e] tr0]|] eqn:Hloop; [|done|done].
  apply retry_loop_returned in Hloop as (i & r & js & Hr & Hjs & Hst & ->).
  rewrite Hro in Hst. rewrite Hraw. simpl.
  destruct (cls (Decoded js)) as [e|obj'] eqn:Hcls; [done|].
  intros [= <- _]. exists i, r, js.
  destruct Hst as [?|?]; [done|]. done.
Qed.

Section EndpointFacts.

Variable self : SyncClient.
Variable srv : Server.
Variable quote : string -> string.
Variable Obj : Type.
Variable cls : Value -> Exn + Obj.

(** X15. [text_generation], [sentiment] and [summarization] only ever
    POST to their own endpoint under the base URL, with the credential
    header and with their arguments as the form fields of [data];
    nothing of the arguments can change the URL. And the call never
    fails the header or URL steps: on a client whose tries allow an
    iteration, every finished call begins with that request. *)
Theorem post_methods_requests fuel text max_length num_return min_length res tr :
  (text_generation self srv Obj cls fuel text max_length num_return = Some (res, tr) ->
     requests_only self
       (Sent "POST" "https://api.openrobot.xyz/api/text-generation"
          {[ "headers" := PyDict {[ "Authorization" := PyStr (token self) ]};
             "data" := PyDict {[ "text" := text; "max_length" := max_length;
                                 "num_return" := num_return ]} ]}) tr)
  /\ (sentiment self srv Obj cls fuel text = Some (res, tr) ->
     requests_only self
       (Sent "POST" "https://api.openrobot.xyz/api/sentiment"
          {[ "headers" := PyDict {[ "Authorization" := PyStr (token self) ]};
             "data" := PyDict {[ "text" := text ]} ]}) tr)
  /\ (summarization self srv Obj cls fuel text max_length min_length = Some (res, tr) ->
     requests_only self
       (Sent "POST" "https://api.openrobot.xyz/api/summarization"
          {[ "headers" := PyDict {[ "Authorization" := PyStr (token self) ]};
             "data" := PyDict {[ "text" := text; "max_length" := max_length;
                                 "min_length" := min_length ]} ]}) tr).
Proof.
  split; [|split]; intros H;
    refine (construct_requests_only cls self srv "POST" fuel _ _
              (mkPrepared _ _ (PyList []) (PyBool false)) res tr _ H);
    reflexivity.
Qed.

(** X16. [text_generation_get], [sentiment_get], [summarization_get]
    and [lyrics] only ever GET the endpoint followed by a slash and the
    quoted argument, with the credential header as the only keyword
    argument; whatever [quote] returns, the method never fails the URL
    check. *)
Theorem get_methods_requests fuel arg res tr m u kw :
  Sent m u kw ∈ tr ->
  (text_generation_get self srv quote Obj cls fuel arg = Some (res, tr) ->
     Sent m u kw
     = Sent "GET" ("https://api.openrobot.xyz/api/text-generation/" +:+ quote arg)
         {[ "headers" := PyDict {[ "Authorization" := PyStr (token self) ]} ]})
  /\ (sentiment_get self srv quote Obj cls fuel arg = Some (res, tr) ->
     Sent m u kw
     = Sent "GET" ("https://api.openrobot.xyz/api/sentiment/" +:+ quote arg)
         {[ "headers" := PyDict {[ "Authorization" := PyStr (token self) ]} ]})
  /\ (summarization_get self srv quote Obj cls fuel arg = Some (res, tr) ->
     Sent m u kw
     = Sent "GET" ("https://api.openrobot.xyz/api/summarization/" +:+ quote arg)
         {[ "headers" := PyDict {[ "Authorization" := PyStr (token self) ]} ]})
  /\ (lyrics self srv quote Obj cls fuel arg = Some (res, tr) ->
     Sent m u kw
     = Sent "GET" ("https://api.openrobot.xyz/api/lyrics/" +:+ quote arg)
         {[ "headers" := PyDict {[ "Authorization" := PyStr (token self) ]} ]}).
Proof.
  intros Hin. split; [|split; [|split]]; intros H;
    refine (construct_sent cls self srv "GET" fuel _ _
              (mkPrepared _ _ (PyList []) (PyBool false)) res tr m u kw _ H Hin);
    reflexivity.
Qed.

End EndpointFacts.

Lemma post_methods_requests_witness :
  requests_only demo_client
    (Sent "POST" "https://api.openrobot.xyz/api/sentiment"
       {[ "headers" := PyDict {[ "Authorization" := PyStr (token demo_client) ]};
          "data" := PyDict {[ "text" := PyStr "hi" ]} ]})
    [Sent "POST" "https://api.openrobot.xyz/api/sentiment"
       {[ "headers" := auth_headers demo_client;
          "data" := PyDict {[ "text" := PyStr "hi" ]} ]}].
Proof.
  exact (proj1 (proj2 (post_methods_requests demo_client (always (demo_response 200 ∅))
    Value (fun v => inr v) 1 (PyStr "hi") PyNone (PyInt 1) (PyInt 1)
    (inr (Decoded demo_body))
    [Sent "POST" "https://api.openrobot.xyz/api/sentiment"
       {[ "headers" := auth_headers demo_client;
          "data" := PyDict {[ "text" := PyStr "hi" ]} ]}])) eq_refl).
Defined.

Lemma get_methods_requests_witness :
  Sent "GET" "https://api.openrobot.xyz/api/lyrics/hello"
    {[ "headers" := auth_headers demo_client ]}
  = Sent "GET" ("https://api.openrobot.xyz/api/lyrics/" +:+ (fun s : string => s) "hello")
      {[ "headers" := PyDict {[ "Authorization" := PyStr (token demo_client) ]} ]}.
Proof.
  refine (proj2 (proj2 (proj2 (get_methods_requests demo_client
    (always (demo_response 200 ∅)) (fun s => s) Value (fun v => inr v) 1 "hello"
    (inr (Decoded demo_body))
    [Sent "GET" "https://api.openrobot.xyz/api/lyrics/hello"
       {[ "headers" := auth_headers demo_client ]}]
    "GET" "https://api.openrobot.xyz/api/lyrics/hello"
    {[ "headers" := auth_headers demo_client ]} _))) eq_refl).
  apply list_elem_of_singleton. reflexivity.
Defined.

(** X17. [nsfw_check] and [celebrity] only ever GET their endpoint with
    the image URL as the query parameter [url]; [ocr] POSTs to its
    endpoint with a [str] source as the query parameter [url] and with
    the bytes of a [BytesIO] source as the uploaded file [upload_file];
    for any other source it raises [OpenRobotAPIError] itself, and no
    request is made. *)
Theorem image_methods_requests self srv key_order Obj (cls : Value -> Exn + Obj)
    (cel : PyVal -> Exn + Obj) fuel url s getvalue res faces tr m u kw :
  Sent m u kw ∈ tr ->
  (nsfw_check self srv Obj cls fuel url = Some (res, tr) ->
     Sent m u kw
     = Sent "GET" "https://api.openrobot.xyz/api/nsfw-check"
         {[ "headers" := PyDict {[ "Authorization" := PyStr (token self) ]};
            "params" := PyDict {[ "url" := url ]} ]})
  /\ (celebrity self srv key_order Obj cel fuel url = Some (faces, tr) ->
     Sent m u kw
     = Sent "GET" "https://api.openrobot.xyz/api/celebrity"
         {[ "headers" := PyDict {[ "Authorization" := PyStr (token self) ]};
            "params" := PyDict {[ "url" := url ]} ]})
  /\ (ocr self srv Obj cls fuel (SourceStr s) = Some (res, tr) ->
     Sent m u kw
     = Sent "POST" "https://api.openrobot.xyz/api/ocr"
         {[ "headers" := PyDict {[ "Authorization" := PyStr (token self) ]};
            "params" := PyDict {[ "url" := PyStr s ]} ]})
  /\ (ocr self srv Obj cls fuel (SourceBytesIO getvalue) = Some (res, tr) ->
     Sent m u kw
     = Sent "POST" "https://api.openrobot.xyz/api/ocr"
         {[ "headers" := PyDict {[ "Authorization" := PyStr (token self) ]};
            "files" := PyDict {[ "upload_file" := getvalue ]} ]})
  /\ ocr self srv Obj cls fuel SourceOther
     = Some (inl (APIError "source must be a URL or BytesIO."), []).
Proof.
  intros Hin. split; [|split; [|split; [|split]]]; [intros H..|reflexivity].
  - refine (construct_sent cls self srv "GET" fuel _ _
              (mkPrepared _ _ (PyList []) (PyBool false)) res tr m u kw _ H Hin);
      reflexivity.
  - refine (construct_sent (detected_faces key_order Obj cel) self srv "GET" fuel _ _
              (mkPrepared _ _ (PyList []) (PyBool false)) faces tr m u kw _ H Hin);
      reflexivity.
  - refine (construct_sent cls self srv "POST" fuel _ _
              (mkPrepared _ _ (PyList []) (PyBool false)) res tr m u kw _ H Hin);
      reflexivity.
  - refine (construct_sent cls self srv "POST" fuel _ _
              (mkPrepared _ _ (PyList []) (PyBool false)) res tr m u kw _ H Hin);
      reflexivity.
Qed.

Lemma image_methods_requests_witness :
  Sent "POST" "https://api.openrobot.xyz/api/ocr"
    {[ "headers" := auth_headers demo_client;
       "files" := PyDict {[ "upload_file" := PyStr "PNG" ]} ]}
  = Sent "POST" "https://api.openrobot.xyz/api/ocr"
      {[ "headers" := PyDict {[ "Authorization" := PyStr (token demo_client) ]};
         "files" := PyDict {[ "upload_file" := PyStr "PNG" ]} ]}.
Proof.
  refine (proj1 (proj2 (proj2 (proj2 (image_methods_requests demo_client
    (always (demo_response 200 ∅)) (fun d => (map_to_list d).*1)
    Value (fun v => inr v) (fun v => inr (Decoded v)) 1
    (PyStr "http://img") "http://img" (PyStr "PNG")
    (inr (Decoded demo_body)) (inl (Propagated (KeyError "detectedFaces")))
    [Sent "POST" "https://api.openrobot.xyz/api/ocr"
       {[ "headers" := auth_headers demo_client;
          "files" := PyDict {[ "upload_file" := PyStr "PNG" ]} ]}]
    "POST" "https://api.openrobot.xyz/api/ocr"
    {[ "headers" := auth_headers demo_client;
       "files" := PyDict {[ "upload_file" := PyStr "PNG" ]} ]} _)))) eq_refl).
  apply list_elem_of_singleton. reflexivity.
Defined.

(** The comprehension gives one object per item, in order, each made
    by the class from its item; it fails only with the exception of an
    item the class refuses. *)
Lemma construct_each_inr {R : Type} (cls : PyVal -> Exn + R) items objs :
  construct_each cls items = inr objs <->
  Forall2 (fun data obj => cls data = inr obj) items objs.
Proof.
  revert objs. induction items as [|data items IH]; intros objs; simpl.
  - split; [intros [= <-]; constructor|intros H; by inversion H].
  - destruct (cls data) as [e|v] eqn:Hd.
    + split; [done|]. intros H. inversion H; congruence.
    + destruct (construct_each cls items) as [e|vs] eqn:Hrest.
      * split; [done|]. intros H. inversion H as [|? y ? ys Hy Hys]; subst.
        by apply IH in Hys.
      * split.
        -- intros [= <-]. constructor; [done|]. by apply IH.
        -- intros H. inversion H as [|? y ? ys Hy Hys]; subst.
           apply IH in Hys. congruence.
Qed.

Lemma construct_each_inl {R : Type} (cls : PyVal -> Exn + R) items e :
  construct_each cls items = inl e ->
  exists done_ data rest objs,
    items = done_ ++ data :: rest
    /\ construct_each cls done_ = inr objs
    /\ cls data = inl e.
Proof.
  induction items as [|data items IH]; simpl; [done|].
  destruct (cls data) as [e'|v] eqn:Hd.
  - intros [= ->]. by exists [], data, items, [].
  - destruct (construct_each cls items) as [e'|vs]; [|done].
    intros [= ->]. destruct (IH eq_refl) as (pre & d & rest & objs & -> & Hpre & Hfail).
    exists (data :: pre), d, rest, (v :: objs). simpl. by rewrite Hd, Hpre.
Qed.

(** X18. What [celebrity] makes of the first response when that is a
    2xx with a JSON object as its body: without the key
    ['detectedFaces'] it raises [KeyError('detectedFaces')] after the
    request; with a list under that key it returns one
    [CelebrityResult] per element, in the order of the list (none for
    an empty list), or the exception of the first element the class
    refuses. *)
Theorem celebrity_faces self (srv : Server) key_order Obj
    (cel : PyVal -> Exn + Obj) fuel url r d :
  tries_cover (tries self) 1 ->
  srv 0%nat "GET" "https://api.openrobot.xyz/api/celebrity"
    {[ "headers" := PyDict {[ "Authorization" := PyStr (token self) ]};
       "params" := PyDict {[ "url" := url ]} ]} = Some r ->
  200 <= status_code r < 300 ->
  json r = Some (PyDict d) ->
  (d !! "detectedFaces" = None ->
     celebrity self srv key_order Obj cel (S fuel) url
     = Some (inl (Propagated (KeyError "detectedFaces")),
             [Sent "GET" "https://api.openrobot.xyz/api/celebrity"
                {[ "headers" := PyDict {[ "Authorization" := PyStr (token self) ]};
                   "params" := PyDict {[ "url" := url ]} ]}]))
  /\ (forall faces objs,
       d !! "detectedFaces" = Some (PyList faces) ->
       Forall2 (fun data obj => cel data = inr obj) faces objs ->
       celebrity self srv key_order Obj cel (S fuel) url
       = Some (inr objs,
               [Sent "GET" "https://api.openrobot.xyz/api/celebrity"
                  {[ "headers" := PyDict {[ "Authorization" := PyStr (token self) ]};
                     "params" := PyDict {[ "url" := url ]} ]}]))
  /\ (forall faces e,
       d !! "detectedFaces" = Some (PyList faces) ->
       construct_each cel faces = inl e ->
       celebrity self srv key_order Obj cel (S fuel) url
       = Some (inl (Propagated e),
               [Sent "GET" "https://api.openrobot.xyz/api/celebrity"
                  {[ "headers" := PyDict {[ "Authorization" := PyStr (token self) ]};
                     "params" := PyDict {[ "url" := url ]} ]}])).
Proof.
  intros Hcover Hr Hst Hjs.
  set (p := mkPrepared "https://api.openrobot.xyz/api/celebrity"
              {[ "headers" := PyDict {[ "Authorization" := PyStr (token self) ]};
                 "params" := PyDict {[ "url" := url ]} ]} (PyList []) (PyBool false)).
  assert (Hreq : _request self srv "GET" (S fuel) "/api/celebrity"
                   {[ "params" := PyDict {[ "url" := url ]} ]}
                 = Some (Returned (Decoded (PyDict d)),
                         [Sent "GET" (p_url p) (p_kwargs p)])).
  { apply (request_finishes self srv "GET" fuel "/api/celebrity" _ p
             (fun _ => r) (fun _ => PyDict d) (fun _ => 0) 0 r); try done.
    - intros i Hi. lia.
    - unfold handle_response. rewrite Hjs. simpl.
      replace (status_code r =? 403) with false by lia.
      replace (status_code r =? 400) with false by lia.
      replace (status_code r =? 500) with false by lia.
      replace (status_code r =? 429) with false by lia.
      replace (200 <=? status_code r) with true by lia.
      replace (status_code r <? 300) with true by lia.
      reflexivity. }
  unfold celebrity. rewrite Hreq. unfold construct, detected_faces, subscript.
  split; [|split].
  - by intros ->.
  - intros faces objs -> Hall. simpl.
    by rewrite (proj2 (construct_each_inr cel faces objs) Hall).
  - intros faces e -> Hfail. simpl. by rewrite Hfail.
Qed.

Lemma celebrity_faces_witness :
  celebrity demo_client
    (always (mkResponse 200 ∅
       (Some (PyDict {[ "detectedFaces" := PyList [PyStr "a"; PyStr "b"] ]}))))
    (fun d => (map_to_list d).*1)
    Value (fun data => inr (Decoded data)) 1 (PyStr "http://img")
  = Some (inr [Decoded (PyStr "a"); Decoded (PyStr "b")],
          [Sent "GET" "https://api.openrobot.xyz/api/celebrity"
             {[ "headers" := PyDict {[ "Authorization" := PyStr (token demo_client) ]};
                "params" := PyDict {[ "url" := PyStr "http://img" ]} ]}]).
Proof.
  refine (proj1 (proj2 (celebrity_faces demo_client
    (always (mkResponse 200 ∅
       (Some (PyDict {[ "detectedFaces" := PyList [PyStr "a"; PyStr "b"] ]}))))
    (fun d => (map_to_list d).*1)
    Value (fun data => inr (Decoded data)) 0 (PyStr "http://img")
    (mkResponse 200 ∅
       (Some (PyDict {[ "detectedFaces" := PyList [PyStr "a"; PyStr "b"] ]})))
    {[ "detectedFaces" := PyList [PyStr "a"; PyStr "b"] ]}
    _ eq_refl _ eq_refl))
    [PyStr "a"; PyStr "b"] [Decoded (PyStr "a"); Decoded (PyStr "b")] eq_refl _).
  - simpl. lia.
  - simpl. lia.
  - repeat constructor.
Defined.

Section EndpointResults.

Variable self : SyncClient.
Variable srv : Server.
Variable quote : string -> string.
Variable Obj : Type.
Variable cls : Value -> Exn + Obj.

(** X19. An endpoint method returns an object only when its result
    class has made it of the decoded body of a response with a status
    in [200, 300) to the method's own request: the methods pass neither
    [return_on] nor [raw], so no other status and never the response
    object reaches the class. *)
Theorem methods_return_from_success fuel text max_length num_return min_length
    arg url obj tr :
  (text_generation self srv Obj cls fuel text max_length num_return
   = Some (inr obj, tr) ->
   built_from_success srv "POST" "https://api.openrobot.xyz/api/text-generation"
     {[ "headers" := PyDict {[ "Authorization" := PyStr (token self) ]};
        "data" := PyDict {[ "text" := text; "max_length" := max_length;
                            "num_return" := num_return ]} ]} cls obj)
  /\ (sentiment self srv Obj cls fuel text = Some (inr obj, tr) ->
   built_from_success srv "POST" "https://api.openrobot.xyz/api/sentiment"
     {[ "headers" := PyDict {[ "Authorization" := PyStr (token self) ]};
        "data" := PyDict {[ "text" := text ]} ]} cls obj)
  /\ (summarization self srv Obj cls fuel text max_length min_length
   = Some (inr obj, tr) ->
   built_from_success srv "POST" "https://api.openrobot.xyz/api/summarization"
     {[ "headers" := PyDict {[ "Authorization" := PyStr (token self) ]};
        "data" := PyDict {[ "text" := text; "max_length" := max_length;
                            "min_length" := min_length ]} ]} cls obj)
  /\ (text_generation_get self srv quote Obj cls fuel arg = Some (inr obj, tr) ->
   built_from_success srv "GET"
     ("https://api.openrobot.xyz/api/text-generation/" +:+ quote arg)
     {[ "headers" := PyDict {[ "Authorization" := PyStr (token self) ]} ]} cls obj)
  /\ (sentiment_get self srv quote Obj cls fuel arg = Some (inr obj, tr) ->
   built_from_success srv "GET"
     ("https://api.openrobot.xyz/api/sentiment/" +:+ quote arg)
     {[ "headers" := PyDict {[ "Authorization" := PyStr (token self) ]} ]} cls obj)
  /\ (summarization_get self srv quote Obj cls fuel arg = Some (inr obj, tr) ->
   built_from_success srv "GET"
     ("https://api.openrobot.xyz/api/summarization/" +:+ quote arg)
     {[ "headers" := PyDict {[ "Authorization" := PyStr (token self) ]} ]} cls obj)
  /\ (lyrics self srv quote Obj cls fuel arg = Some (inr obj, tr) ->
   built_from_success srv "GET"
     ("https://api.openrobot.xyz/api/lyrics/" +:+ quote arg)
     {[ "headers" := PyDict {[ "Authorization" := PyStr (token self) ]} ]} cls obj)
  /\ (nsfw_check self srv Obj cls fuel url = Some (inr obj, tr) ->
   built_from_success srv "GET" "https://api.openrobot.xyz/api/nsfw-check"
     {[ "headers" := PyDict {[ "Authorization" := PyStr (token self) ]};
        "params" := PyDict {[ "url" := url ]} ]} cls obj).
Proof.
  repeat match goal with |- _ /\ _ => split end; intros H;
    refine (construct_built cls self srv _ fuel _ _
              (mkPrepared _ _ (PyList []) (PyBool false)) obj tr _ eq_refl eq_refl H);
    reflexivity.
Qed.

End EndpointResults.

Lemma methods_return_from_success_witness :
  built_from_success (always (demo_response 200 ∅)) "GET"
    ("https://api.openrobot.xyz/api/lyrics/" +:+ (fun s : string => s) "hello")
    {[ "headers" := PyDict {[ "Authorization" := PyStr (token demo_client) ]} ]}
    (fun v => inr v) (Decoded demo_body).
Proof.
  exact (proj1 (proj2 (proj2 (proj2 (proj2 (proj2 (proj2
    (methods_return_from_success demo_client (always (demo_response 200 ∅))
       (fun s => s) Value (fun v => inr v) 1 (PyStr "hi") PyNone (PyInt 1) (PyInt 1)
       "hello" (PyStr "http://img") (Decoded demo_body)
       [Sent "GET" "https://api.openrobot.xyz/api/lyrics/hello"
          {[ "headers" := auth_headers demo_client ]}]))))))) eq_refl).
Defined.
